(** * The CloudflareTunnel reconciler

    A shallow embedding of [controllers/cloudflaretunnel_controller.go]:
    the reconciliation pass of the cloudflare-tunnel-operator and the steps
    it sequences (credential lookup, remote tunnel lookup or creation,
    child resource synchronisation, target URL derivation, DNS record).

    The controller talks to three collaborators: the cluster API
    ([client.Client]), the Cloudflare SDK ([*cloudflare.API]) and the system
    random source ([crypto/rand]).  They are interfaces over a world [W];
    the reconciler is written once, against the interfaces, in a small
    state monad that threads the reconciler's mutable fields, the world, the
    sequence of collaborator calls and the log. *)

From Stdlib Require Import ZArith NArith Ascii String List.
From Stdlib.Strings Require Import Byte.
From stdpp Require Import base strings gmap list pretty.

Open Scope Z_scope.
Open Scope string_scope.
Open Scope list_scope.

(* ================================================================== *)
(** * Errors and panics *)
(* ================================================================== *)

(** [metav1.StatusReason], as far as the controller distinguishes it. *)
Inductive StatusReason :=
| StatusReasonNotFound
| StatusReasonAlreadyExists
| StatusReasonConflict
| StatusReasonUnknown.

(** Go's [error] values met by the controller.  A nil [error] is [None] of
    [option error]. *)
Inductive error :=
| Errorf (msg : string)                               (* fmt.Errorf *)
| StatusError (reason : StatusReason) (msg : string)  (* apimachinery errors *)
| ExternalError (origin msg : string).                (* anything else a library returns *)

(** [errors.IsNotFound] *)
Definition IsNotFound (err : error) : bool :=
  match err with
  | StatusError StatusReasonNotFound _ => true
  | _ => false
  end.

(** Run-time panics of the Go runtime that the controller can reach. *)
Inductive panic :=
| IndexOutOfRange (index len : nat)
| NilPointerDereference.

Inductive outcome (A : Type) :=
| Returned (a : A)
| Panicked (p : panic).
Arguments Returned {A} a.
Arguments Panicked {A} p.

(* ================================================================== *)
(** * Cluster objects *)
(* ================================================================== *)

Record NamespacedName := mkNamespacedName {
  nn_Name : string;
  nn_Namespace : string }.

Record OwnerReference := mkOwnerReference {
  or_Kind : string;
  or_Name : string;
  or_Controller : bool }.

Record ObjectMeta := mkObjectMeta {
  om_Name : string;
  om_Namespace : string;
  om_OwnerReferences : list OwnerReference }.

(** [corev1.Secret]: [Data] is a [map[string][]byte]. *)
Record Secret := mkSecret {
  sec_Meta : ObjectMeta;
  sec_Data : gmap string (list byte) }.

Record ConfigMap := mkConfigMap {
  cm_Meta : ObjectMeta;
  cm_Data : gmap string string }.

(** [appsv1.Deployment], reduced to what the workload of the operator
    carries: a replica count and the names of the two mounted children. *)
Record Deployment := mkDeployment {
  dep_Meta : ObjectMeta;
  dep_Replicas : Z;
  dep_SecretVolume : string;
  dep_ConfigMapVolume : string }.

Record ServicePort := mkServicePort {
  sp_Name : string;
  sp_Port : Z }.                                  (* int32 *)

Record LoadBalancerIngress := mkLoadBalancerIngress {
  lbi_IP : string;
  lbi_Hostname : string }.

(** [corev1.ServiceType] is a string type. *)
Definition ServiceTypeClusterIP : string := "ClusterIP".
Definition ServiceTypeNodePort : string := "NodePort".
Definition ServiceTypeLoadBalancer : string := "LoadBalancer".

Record Service := mkService {
  svc_Meta : ObjectMeta;
  svc_Ports : list ServicePort;                   (* Spec.Ports *)
  svc_Type : string;                              (* Spec.Type *)
  svc_Ingress : list LoadBalancerIngress }.       (* Status.LoadBalancer.Ingress *)

(** The custom resource ([cfv1.CloudflareTunnel]); its fields are the ones
    the controller reads. *)
Record ServiceRef := mkServiceRef {
  sr_Name : string;
  sr_Namespace : string;
  sr_Port : Z;                                    (* int32 *)
  sr_Protocol : string }.

Record CloudflareTunnelSpec := mkCloudflareTunnelSpec {
  cts_Zone : string;
  cts_Domain : string;
  cts_Service : ServiceRef;
  cts_Replicas : Z;
  cts_TokenSecretName : string }.

Record CloudflareTunnelStatus := mkCloudflareTunnelStatus {
  status_TunnelID : string }.

Record CloudflareTunnel := mkCloudflareTunnel {
  ct_Meta : ObjectMeta;
  ct_Spec : CloudflareTunnelSpec;
  ct_Status : CloudflareTunnelStatus }.

(** The kinds of object the controller hands to the cluster client, and
    the Go type behind each. *)
Inductive Kind := KCloudflareTunnel | KSecret | KConfigMap | KDeployment | KService.

Definition obj (k : Kind) : Type :=
  match k with
  | KCloudflareTunnel => CloudflareTunnel
  | KSecret => Secret
  | KConfigMap => ConfigMap
  | KDeployment => Deployment
  | KService => Service
  end.

(** Zero values ([var x T]). *)
Definition zero_ObjectMeta : ObjectMeta := mkObjectMeta "" "" [].
Definition zero_ServicePort : ServicePort := mkServicePort "" 0.

Definition zero_obj (k : Kind) : obj k :=
  match k with
  | KCloudflareTunnel =>
      mkCloudflareTunnel zero_ObjectMeta
        (mkCloudflareTunnelSpec "" "" (mkServiceRef "" "" 0 "") 0 "")
        (mkCloudflareTunnelStatus "")
  | KSecret => mkSecret zero_ObjectMeta ∅
  | KConfigMap => mkConfigMap zero_ObjectMeta ∅
  | KDeployment => mkDeployment zero_ObjectMeta 0 "" ""
  | KService => mkService zero_ObjectMeta [] "" []
  end.

(** [ctrl.Request] is a [NamespacedName]; [ctrl.Result{}] is the zero result. *)
Record Result := mkResult {
  res_Requeue : bool;
  res_RequeueAfter : Z }.
Definition zero_Result : Result := mkResult false 0.

(* ================================================================== *)
(** * Cloudflare SDK values *)
(* ================================================================== *)

(** The SDK handle; [AccountID] is assigned by the controller after
    construction. *)
Record API := mkAPI {
  api_APIToken : string;
  api_AccountID : string }.

Record Tunnel := mkTunnel {
  tun_ID : string;
  tun_Name : string }.
Definition zero_Tunnel : Tunnel := mkTunnel "" "".

Record TunnelListParams := mkTunnelListParams {
  tlp_AccountID : string;
  tlp_Name : string;
  tlp_IsDeleted : option bool;                    (* *bool *)
  tlp_UUID : string }.

Record TunnelCreateParams := mkTunnelCreateParams {
  tcp_AccountID : string;
  tcp_Name : string;
  tcp_Secret : string }.

Record TunnelTokenParams := mkTunnelTokenParams {
  ttp_AccountID : string;
  ttp_ID : string }.

Record DNSRecord := mkDNSRecord {
  dns_Type : string;
  dns_Name : string;
  dns_Content : string;
  dns_TTL : Z }.

(* ================================================================== *)
(** * The reconciler's own state *)
(* ================================================================== *)

(** [TunnelExpanded]: the spec embedded by value, the SDK handle embedded
    by pointer, and the fields each step fills in. *)
Record TunnelExpanded := mkTunnelExpanded {
  te_Spec : CloudflareTunnelSpec;
  te_API : option API;
  te_AccountToken : string;
  te_AccountTag : string;
  te_Name : string;
  te_Namespace : string;
  te_TunnelID : string;
  te_TunnelSecret : string }.

Definition set_API (v : option API) (t : TunnelExpanded) : TunnelExpanded :=
  mkTunnelExpanded (te_Spec t) v (te_AccountToken t) (te_AccountTag t)
    (te_Name t) (te_Namespace t) (te_TunnelID t) (te_TunnelSecret t).
Definition set_AccountToken (v : string) (t : TunnelExpanded) : TunnelExpanded :=
  mkTunnelExpanded (te_Spec t) (te_API t) v (te_AccountTag t)
    (te_Name t) (te_Namespace t) (te_TunnelID t) (te_TunnelSecret t).
Definition set_AccountTag (v : string) (t : TunnelExpanded) : TunnelExpanded :=
  mkTunnelExpanded (te_Spec t) (te_API t) (te_AccountToken t) v
    (te_Name t) (te_Namespace t) (te_TunnelID t) (te_TunnelSecret t).
Definition set_TunnelID (v : string) (t : TunnelExpanded) : TunnelExpanded :=
  mkTunnelExpanded (te_Spec t) (te_API t) (te_AccountToken t) (te_AccountTag t)
    (te_Name t) (te_Namespace t) v (te_TunnelSecret t).
Definition set_TunnelSecret (v : string) (t : TunnelExpanded) : TunnelExpanded :=
  mkTunnelExpanded (te_Spec t) (te_API t) (te_AccountToken t) (te_AccountTag t)
    (te_Name t) (te_Namespace t) (te_TunnelID t) v.

(** [cf.AccountID = ...] *)
Definition set_AccountID (v : string) (a : API) : API :=
  mkAPI (api_APIToken a) v.

(** Inputs of the builders of [controllers/models]. *)
Record SecretModel := mkSecretModel {
  sm_Name : string;
  sm_Namespace : string;
  sm_TunnelSecret : string;
  sm_TunnelID : string }.

Record ConfigMapModel := mkConfigMapModel {
  cmm_Name : string;
  cmm_Namespace : string;
  cmm_Service : string;
  cmm_TunnelID : string;
  cmm_Domain : string }.

Record DeploymentModel := mkDeploymentModel {
  dm_Name : string;
  dm_Namespace : string;
  dm_Replicas : Z;
  dm_TunnelID : string;
  dm_Secret : option Secret;                      (* *corev1.Secret *)
  dm_ConfigMap : option ConfigMap }.              (* *corev1.ConfigMap *)

(* ================================================================== *)
(** * Collaborator calls and log entries *)
(* ================================================================== *)

(** One entry per call that leaves the controller. *)
Inductive Call :=
| CallGet (k : Kind) (key : NamespacedName)
| CallCreate (k : Kind) (o : obj k)
| CallUpdate (k : Kind) (o : obj k)
| CallNewWithAPIToken (token : string)
| CallTunnels (cf : API) (params : TunnelListParams)
| CallCreateTunnel (cf : API) (params : TunnelCreateParams)
| CallTunnelToken (cf : API) (params : TunnelTokenParams)
| CallZoneIDByName (cf : API) (zone : string)
| CallDNSRecords (cf : API) (zoneID : string) (filter : DNSRecord)
| CallCreateDNSRecord (cf : API) (zoneID : string) (rr : DNSRecord)
| CallRandRead (n : nat).

Inductive LogEntry :=
| LogInfo (verbosity : nat) (msg : string)
| LogError (err : option error) (msg : string).

(** Calls that change the cluster or the provider. *)
Definition is_write (c : Call) : bool :=
  match c with
  | CallCreate _ _ | CallUpdate _ _ | CallCreateTunnel _ _
  | CallCreateDNSRecord _ _ _ => true
  | _ => false
  end.

(** The kind of cluster object a call writes, if it writes one. *)
Definition written_kind (c : Call) : option Kind :=
  match c with
  | CallCreate k _ | CallUpdate k _ => Some k
  | _ => None
  end.

Definition is_CreateTunnel (c : Call) : bool :=
  match c with CallCreateTunnel _ _ => true | _ => false end.

Definition is_Tunnels (c : Call) : bool :=
  match c with CallTunnels _ _ => true | _ => false end.

(** The calls the pass makes up to and including credential lookup: reads
    of the custom resource and of the account secret. *)
Definition is_credential_read (c : Call) : bool :=
  match c with
  | CallGet KCloudflareTunnel _ | CallGet KSecret _ => true
  | _ => false
  end.

(* ================================================================== *)
(** * encoding/base64 and strconv *)
(* ================================================================== *)

Module Base64.

(** [encodeStd], the alphabet of [base64.StdEncoding]. *)
Definition encodeStd : string :=
  "ABCDEFGHIJKLMNOPQRSTUVWXYZabcdefghijklmnopqrstuvwxyz0123456789+/".

Definition StdPadding : ascii := "="%char.

(** [enc.encode[v & 0x3F]] *)
Definition enc (v : N) : ascii :=
  match String.get (N.to_nat (N.land v 63)) encodeStd with
  | Some c => c
  | None => StdPadding
  end.

(** The method [Encode] of [Encoding]: three source bytes become four characters; a
    remainder of one or two bytes is padded. *)
Fixpoint Encode (src : list byte) : list ascii :=
  match src with
  | [] => []
  | [b0] =>
      let val := N.shiftl (Byte.to_N b0) 16 in
      [enc (N.shiftr val 18); enc (N.shiftr val 12); StdPadding; StdPadding]
  | [b0; b1] =>
      let val := N.lor (N.shiftl (Byte.to_N b0) 16) (N.shiftl (Byte.to_N b1) 8) in
      [enc (N.shiftr val 18); enc (N.shiftr val 12); enc (N.shiftr val 6); StdPadding]
  | b0 :: b1 :: b2 :: rest =>
      let val := N.lor (N.lor (N.shiftl (Byte.to_N b0) 16) (N.shiftl (Byte.to_N b1) 8))
                       (Byte.to_N b2) in
      enc (N.shiftr val 18) :: enc (N.shiftr val 12) :: enc (N.shiftr val 6) :: enc val
        :: Encode rest
  end.

(** [base64.StdEncoding.EncodeToString] *)
Definition EncodeToString (src : list byte) : string :=
  string_of_list_ascii (Encode src).

End Base64.

(** [strconv.Itoa]: decimal, with a leading minus sign for negatives. *)
Definition Itoa (i : Z) : string := pretty i.

(** [make([]byte, n)] *)
Definition make_bytes (n : nat) : list byte := repeat x00 n.

(** What a reader leaves in a buffer [buf] after writing [data] into it:
    at most [len(buf)] bytes, from the front. *)
Definition fill (buf data : list byte) : list byte :=
  firstn (length buf) data ++ skipn (length data) buf.

(** [&x], the address of a variable: a pointer, and never the nil one. *)
Definition addr_of {A : Type} (x : A) : option A := Some x.

(* ================================================================== *)
(** * The collaborators *)
(* ================================================================== *)

(** [client.Client], the cluster API.  A call takes the world to a result
    and a new world; [Get] yields the object it stored through the pointer
    it was given, [Create] and [Update] the object as the server left it. *)
Class Client (W : Type) := {
  client_Get : forall k : Kind, NamespacedName -> W -> (obj k * option error) * W;
  client_Create : forall k : Kind, obj k -> W -> (obj k * option error) * W;
  client_Update : forall k : Kind, obj k -> W -> (obj k * option error) * W }.

(** The part of [github.com/cloudflare/cloudflare-go] the controller uses. *)
Class Cloudflare (W : Type) := {
  cf_NewWithAPIToken : string -> W -> (option API * option error) * W;
  cf_Tunnels : API -> TunnelListParams -> W -> (list Tunnel * option error) * W;
  cf_CreateTunnel : API -> TunnelCreateParams -> W -> (Tunnel * option error) * W;
  cf_TunnelToken : API -> TunnelTokenParams -> W -> (string * option error) * W;
  cf_ZoneIDByName : API -> string -> W -> (string * option error) * W;
  cf_DNSRecords : API -> string -> DNSRecord -> W -> (list DNSRecord * option error) * W;
  cf_CreateDNSRecord : API -> string -> DNSRecord -> W -> (option DNSRecord * option error) * W }.

(** [crypto/rand]: the bytes the source hands out when asked for [n]. *)
Class CryptoRand (W : Type) := {
  rand_source : nat -> W -> (list byte * option error) * W }.

(** Code of the repository outside this file: the builders of
    [controllers/models] and the constant of [controllers/constants]. *)
Class Models := {
  CNAMESuffix : string;
  GetSecret : SecretModel -> Secret;
  GetConfigMap : ConfigMapModel -> ConfigMap * option error;
  GetDeployment : DeploymentModel -> Deployment }.

(** Pure library functions: [ctrl.SetControllerReference] for the scheme
    of the reconciler (it stamps the owner onto the object it is given) and
    [base64.StdEncoding.DecodeString]. *)
Class Libraries := {
  SetControllerReference : CloudflareTunnel -> forall k : Kind, obj k -> obj k * option error;
  DecodeString : string -> list byte * option error }.

(* ================================================================== *)
(** * The reconciler monad *)
(* ================================================================== *)

Record State (W : Type) := mkState {
  st_r : TunnelExpanded;        (* r.TunnelExpanded *)
  st_world : W;                 (* cluster, provider, random source *)
  st_calls : list Call;         (* calls made so far, oldest first *)
  st_log : list LogEntry }.     (* r.logger output, oldest first *)
Arguments mkState {W} _ _ _ _.
Arguments st_r {W} _.
Arguments st_world {W} _.
Arguments st_calls {W} _.
Arguments st_log {W} _.

Definition M (W A : Type) : Type := State W -> outcome A * State W.

Definition ret {W A} (a : A) : M W A := fun s => (Returned a, s).

Definition bind {W A B} (m : M W A) (k : A -> M W B) : M W B :=
  fun s =>
    match m s with
    | (Returned a, s') => k a s'
    | (Panicked p, s') => (Panicked p, s')
    end.

Declare Scope go_scope.
Delimit Scope go_scope with go.
Notation "'let*' x ':=' m 'in' k" := (bind m (fun x => k))
  (at level 10, x pattern, m at level 100, k at level 200) : go_scope.
Notation "m ;; k" := (bind m (fun _ => k))
  (at level 100, k at level 200, right associativity) : go_scope.
Open Scope go_scope.

Definition do_panic {W A} (p : panic) : M W A := fun s => (Panicked p, s).

Definition get_r {W} : M W TunnelExpanded := fun s => (Returned (st_r s), s).

Definition put_r {W} (t : TunnelExpanded) : M W unit :=
  fun s => (Returned tt, mkState t (st_world s) (st_calls s) (st_log s)).

Definition modify_r {W} (f : TunnelExpanded -> TunnelExpanded) : M W unit :=
  fun s => (Returned tt, mkState (f (st_r s)) (st_world s) (st_calls s) (st_log s)).

Definition emit_log {W} (e : LogEntry) : M W unit :=
  fun s => (Returned tt, mkState (st_r s) (st_world s) (st_calls s) (st_log s ++ [e])).

(** A call to a collaborator: recorded, then answered by the world. *)
Definition call {W A} (c : Call) (f : W -> A * W) : M W A :=
  fun s =>
    let '(a, w) := f (st_world s) in
    (Returned a, mkState (st_r s) w (st_calls s ++ [c]) (st_log s)).

(** [*p] and [p.f]: a nil pointer panics. *)
Definition deref {W A} (p : option A) : M W A :=
  match p with
  | Some a => ret a
  | None => do_panic NilPointerDereference
  end.

(** [l[i]]: an index out of range panics. *)
Definition at_index {W A} (l : list A) (i : nat) : M W A :=
  match nth_error l i with
  | Some a => ret a
  | None => do_panic (IndexOutOfRange i (length l))
  end.

Section Controller.

Context {W : Type} `{!Client W} `{!Cloudflare W} `{!CryptoRand W}.
Context `{!Models} `{!Libraries}.

(** ** The logger *)

Definition logger_Info (v : nat) (msg : string) : M W unit :=
  emit_log (LogInfo v msg).

Definition logger_Error (err : option error) (msg : string) : M W unit :=
  emit_log (LogError err msg).

(** ** The calls *)

Definition Get (k : Kind) (key : NamespacedName) : M W (obj k * option error) :=
  call (CallGet k key) (client_Get k key).

Definition Create (k : Kind) (o : obj k) : M W (obj k * option error) :=
  call (CallCreate k o) (client_Create k o).

Definition Update (k : Kind) (o : obj k) : M W (obj k * option error) :=
  call (CallUpdate k o) (client_Update k o).

Definition NewWithAPIToken (token : string) : M W (option API * option error) :=
  call (CallNewWithAPIToken token) (cf_NewWithAPIToken token).

Definition Tunnels (cf : API) (params : TunnelListParams) : M W (list Tunnel * option error) :=
  call (CallTunnels cf params) (cf_Tunnels cf params).

Definition CreateTunnel (cf : API) (params : TunnelCreateParams) : M W (Tunnel * option error) :=
  call (CallCreateTunnel cf params) (cf_CreateTunnel cf params).

Definition TunnelToken (cf : API) (params : TunnelTokenParams) : M W (string * option error) :=
  call (CallTunnelToken cf params) (cf_TunnelToken cf params).

Definition ZoneIDByName (cf : API) (zone : string) : M W (string * option error) :=
  call (CallZoneIDByName cf zone) (cf_ZoneIDByName cf zone).

Definition DNSRecords (cf : API) (zoneID : string) (filter : DNSRecord)
  : M W (list DNSRecord * option error) :=
  call (CallDNSRecords cf zoneID filter) (cf_DNSRecords cf zoneID filter).

Definition CreateDNSRecord (cf : API) (zoneID : string) (rr : DNSRecord)
  : M W (option DNSRecord * option error) :=
  call (CallCreateDNSRecord cf zoneID rr) (cf_CreateDNSRecord cf zoneID rr).

(** [rand.Read(b)]: the buffer as the source left it, and the error. *)
Definition rand_Read (b : list byte) : M W (list byte * option error) :=
  let* (data, err) := call (CallRandRead (length b)) (rand_source (length b)) in
  ret (fill b data, err).

(** ** generateTunnelSecret *)

Definition generateTunnelSecret : M W (string * option error) :=
  let randomBytes := make_bytes 32 in
  let* (randomBytes, err) := rand_Read randomBytes in
  ret (Base64.EncodeToString randomBytes, err).

(** ** fetchDecodeSecret *)

Definition fetchDecodeSecret : M W (option error) :=
  let* r := get_r in
  let TokenSecretName := cts_TokenSecretName (te_Spec r) in
  if (String.length TokenSecretName =? 0)%nat then
    let err := Errorf "CredentialSecretName key does not exist" in
    logger_Error (Some err) "CredentialSecretName not found" ;;
    ret (Some err)
  else
    let* (secret, err) := Get KSecret (mkNamespacedName TokenSecretName (te_Namespace r)) in
    match err with
    | Some e =>
        (if IsNotFound e
         then logger_Error (Some e) ("could not find secret with name " +:+ TokenSecretName)
         else ret tt) ;;
        ret (Some e)
    | None =>
        logger_Info 1 "Secret fetched" ;;
        let encodedToken := sec_Data secret !! "token" in
        let encodedAccountID := sec_Data secret !! "accountID" in
        match encodedToken with
        | None =>
            let err := Errorf "invalid key" in
            logger_Error (Some err) "key credentials not found" ;;
            ret (Some err)
        | Some encodedToken =>
            match encodedAccountID with
            | None =>
                let err := Errorf "invalid key" in
                logger_Error (Some err) "key accountID not found" ;;
                ret (Some err)
            | Some encodedAccountID =>
                logger_Info 1 "Secret decoded" ;;
                modify_r (set_AccountTag (string_of_list_byte encodedAccountID)) ;;
                modify_r (set_AccountToken (string_of_list_byte encodedToken)) ;;
                ret None
            end
        end
    end.

(** ** createTunnelRemote *)

Definition createTunnelRemote : M W (option error) :=
  let* r := get_r in
  let* (cf, err) := NewWithAPIToken (te_AccountToken r) in
  modify_r (set_API cf) ;;
  match err with
  | Some e =>
      logger_Error (Some e) "could not create cloudflare instance" ;;
      ret (Some e)
  | None =>
      logger_Info 1 "Cloudflare instance successfully created" ;;
      (* cf.AccountID = r.AccountTag; r.API is the same pointer *)
      let* cf := deref cf in
      let cf := set_AccountID (te_AccountTag r) cf in
      modify_r (set_API (Some cf)) ;;
      let falsePointer := false in
      let tunnelListParams :=
        mkTunnelListParams (api_AccountID cf) (te_Name r) (Some falsePointer) "" in
      let tunnelListParams :=
        if negb (String.eqb (te_TunnelID r) "")
        then mkTunnelListParams (tlp_AccountID tunnelListParams) (tlp_Name tunnelListParams)
               (tlp_IsDeleted tunnelListParams) (te_TunnelID r)
        else tunnelListParams in
      let* (tunnels, err) := Tunnels cf tunnelListParams in
      match err with
      | Some e =>
          logger_Error (Some e) "could not fetch tunnel list" ;;
          ret (Some e)
      | None =>
          logger_Info 1 "Existing tunnels fetched" ;;
          (* lines 240-256, reached from the second and the third branch *)
          let adopt (tunnel : Tunnel) : M W (option error) :=
            modify_r (set_TunnelID (tun_ID tunnel)) ;;
            let* (tunnelToken, err) :=
              TunnelToken cf (mkTunnelTokenParams (api_AccountID cf) (tun_ID tunnel)) in
            match err with
            | Some e =>
                logger_Error (Some e) "could not fetch tunnel token" ;;
                ret (Some e)
            | None =>
                let (tunnelTokenDecodedBytes, err) := DecodeString tunnelToken in
                match err with
                | Some e =>
                    logger_Error (Some e) "could not decode tunnel token" ;;
                    ret (Some e)
                | None =>
                    modify_r (set_TunnelSecret (string_of_list_byte tunnelTokenDecodedBytes)) ;;
                    ret None
                end
            end in
          if (2 <=? length tunnels)%nat then
            let err := Errorf "multiple tunnels exist" in
            logger_Error (Some err)
              "2 or more tunnels already exists with the given name. Unable to choose between one of them" ;;
            ret (Some err)
          else if (length tunnels =? 1)%nat then
            logger_Info 0 "Tunnel already exists. Reconciling..." ;;
            let* tunnel := at_index tunnels 0 in
            adopt tunnel
          else
            logger_Info 0 "Tunnel doesn't exist. Creating..." ;;
            let* (tunnelSecret, err) := generateTunnelSecret in
            match err with
            | Some e =>
                logger_Error (Some e) "could not generate tunnel secret" ;;
                ret (Some e)
            | None =>
                logger_Info 1 "Cloudflare Tunnel secret generated" ;;
                let tunnelParams :=
                  mkTunnelCreateParams (api_AccountID cf) (te_Name r) tunnelSecret in
                let* (tunnel, err) := CreateTunnel cf tunnelParams in
                match err with
                | Some e =>
                    logger_Error (Some e) "could not create the tunnel" ;;
                    ret (Some e)
                | None => adopt tunnel
                end
            end
      end
  end.

(** ** createDNSCNAME *)

Definition createDNSCNAME : M W (option error) :=
  let* r := get_r in
  let* api := deref (te_API r) in
  let* (zoneID, err) := ZoneIDByName api (cts_Zone (te_Spec r)) in
  match err with
  | Some e =>
      logger_Error (Some e) "could not fetch zone id" ;;
      ret (Some e)
  | None =>
      let* (dnsRecords, err) :=
        DNSRecords api zoneID (mkDNSRecord "CNAME" (cts_Domain (te_Spec r)) "" 0) in
      match err with
      | Some e =>
          logger_Error (Some e) "could not fetch dns list" ;;
          ret (Some e)
      | None =>
          if negb (length dnsRecords =? 0)%nat then
            logger_Info 1 "DNS record exists" ;;
            ret None
          else
            logger_Info 1 "DNS record doesn't exist, creating" ;;
            let* (_, err) :=
              CreateDNSRecord api zoneID
                (mkDNSRecord "CNAME" (cts_Domain (te_Spec r))
                   (te_TunnelID r +:+ CNAMESuffix) 0) in
            match err with
            | Some e =>
                logger_Error (Some e) "could not fetch tunnel token" ;;
                ret (Some e)
            | None => ret None
            end
      end
  end.

(** ** createSecret, createConfigMap, createDeployment *)

Definition createSecret (cloudflareTunnel : CloudflareTunnel)
  : M W (option Secret * option error) :=
  let* r := get_r in
  let secretCreate :=
    GetSecret (mkSecretModel (te_Name r) (te_Namespace r) (te_TunnelSecret r) (te_TunnelID r)) in
  let (secretCreate, err) := SetControllerReference cloudflareTunnel KSecret secretCreate in
  match err with
  | Some e =>
      logger_Error (Some e) "could not create controller reference in secret" ;;
      ret (None, Some e)
  | None =>
      logger_Info 1 "Owner Reference for Secret created" ;;
      let* (secretFetch, err) :=
        Get KSecret (mkNamespacedName (om_Name (sec_Meta secretCreate)) (te_Namespace r)) in
      match err with
      | Some e =>
          if IsNotFound e then
            logger_Info 0 "creating secret..." ;;
            let* (secretCreate, err') := Create KSecret secretCreate in
            match err' with
            | Some e' =>
                logger_Error (Some e') "could not create secret in cluster" ;;
                ret (None, Some e')
            | None => ret (None, Some e)                      (* line 319 *)
            end
          else ret (None, Some e)                             (* line 319 *)
      | None =>
          let* (secretCreate, err) := Update KSecret secretCreate in
          match err with
          | Some e =>
              logger_Error (Some e) "could not update secret" ;;
              ret (None, Some e)
          | None => ret (Some secretCreate, None)
          end
      end
  end.

Definition createConfigMap (cloudflareTunnel : CloudflareTunnel) (url : string)
  : M W (option ConfigMap * option error) :=
  let* r := get_r in
  let (configMapCreate, err) :=
    GetConfigMap (mkConfigMapModel (te_Name r) (te_Namespace r) url (te_TunnelID r)
                    (cts_Domain (te_Spec r))) in
  match err with
  | Some e => ret (None, Some e)
  | None =>
      let (configMapCreate, err) :=
        SetControllerReference cloudflareTunnel KConfigMap configMapCreate in
      match err with
      | Some e =>
          logger_Error (Some e) "could not create controller reference in configMap" ;;
          ret (None, Some e)
      | None =>
          logger_Info 1 "Owner Reference for ConfigMap created" ;;
          let* (configMapFetch, err) :=
            Get KConfigMap
              (mkNamespacedName (om_Name (cm_Meta configMapCreate)) (te_Namespace r)) in
          match err with
          | Some e =>
              if IsNotFound e then
                logger_Info 0 "creating ConfigMap..." ;;
                let* (configMapCreate, err') := Create KConfigMap configMapCreate in
                match err' with
                | Some e' =>
                    logger_Error (Some e') "could not create ConfigMap in cluster" ;;
                    ret (None, Some e')
                | None => ret (None, Some e)                  (* line 361 *)
                end
              else ret (None, Some e)                         (* line 361 *)
          | None =>
              let* (configMapCreate, err) := Update KConfigMap configMapCreate in
              match err with
              | Some e =>
                  logger_Error (Some e) "could not update ConfigMap" ;;
                  ret (None, Some e)
              | None => ret (Some configMapCreate, None)
              end
          end
      end
  end.

Definition createDeployment (cloudflareTunnel : CloudflareTunnel)
    (secret : option Secret) (configMap : option ConfigMap)
  : M W (option Deployment * option error) :=
  let* r := get_r in
  let deploymentCreate :=
    GetDeployment (mkDeploymentModel (te_Name r) (te_Namespace r) (cts_Replicas (te_Spec r))
                     (te_TunnelID r) secret configMap) in
  let (deploymentCreate, err) :=
    SetControllerReference cloudflareTunnel KDeployment deploymentCreate in
  match err with
  | Some e =>
      logger_Error (Some e) "could not create controller reference in deployment" ;;
      ret (None, Some e)
  | None =>
      logger_Info 1 "Owner Reference for deployment created" ;;
      let* (deploymentFetch, err) :=
        Get KDeployment
          (mkNamespacedName (om_Name (dep_Meta deploymentCreate)) (te_Namespace r)) in
      match err with
      | Some e =>
          if IsNotFound e then
            logger_Info 0 "creating deployment..." ;;
            let* (deploymentCreate, err') := Create KDeployment deploymentCreate in
            match err' with
            | Some e' =>
                logger_Error (Some e') "could not create deployment in cluster" ;;
                ret (None, Some e')
            | None => ret (None, Some e)                      (* line 401 *)
            end
          else ret (None, Some e)                             (* line 401 *)
      | None =>
          let* (deploymentCreate, err) := Update KDeployment deploymentCreate in
          match err with
          | Some e =>
              logger_Error (Some e) "could not update deployment" ;;
              ret (None, Some e)
          | None => ret (Some deploymentCreate, None)
          end
      end
  end.

(** ** getTargetURL *)

(** The loop of lines 424-430: the first port whose number is the one
    asked for is copied into [port]; without one, [port] keeps the value
    it had. *)
Fixpoint scan_ports (ports : list ServicePort) (want : Z) (port : ServicePort)
  : M W ServicePort :=
  match ports with
  | [] => ret port
  | servicePort :: rest =>
      if (sp_Port servicePort =? want)%Z then
        logger_Info 1 "Ports matched" ;;
        ret servicePort
      else scan_ports rest want port
  end.

Definition getTargetURL : M W (string * option error) :=
  let* r := get_r in
  let Service := cts_Service (te_Spec r) in
  let* (targetService, err) :=
    Get KService (mkNamespacedName (sr_Name Service) (sr_Namespace Service)) in
  match err with
  | Some e =>
      (if IsNotFound e
       then logger_Error (Some e) "target service not present"
       else ret tt) ;;
      ret ("", Some e)
  | None =>
      let port := zero_ServicePort in
      let* port := scan_ports (svc_Ports targetService) (sr_Port Service) port in
      match addr_of port with
      | None =>                                               (* &port == nil *)
          logger_Error err "port doesn't exist in service" ;;
          ret ("", err)
      | Some _ =>
          if String.eqb (svc_Type targetService) ServiceTypeLoadBalancer then
            let* ingress := at_index (svc_Ingress targetService) 0 in
            ret (sr_Protocol Service +:+ "://" +:+ lbi_IP ingress +:+ ":"
                   +:+ Itoa (sr_Port Service), None)
          else
            ret (sr_Protocol Service +:+ "://" +:+ sr_Name Service +:+ "."
                   +:+ sr_Namespace Service +:+ ":" +:+ Itoa (sr_Port Service), None)
      end
  end.

(** ** Reconcile *)

(** [&TunnelExpanded{...}] of lines 78-83. *)
Definition expand (cloudflareTunnel : CloudflareTunnel) : TunnelExpanded :=
  mkTunnelExpanded (ct_Spec cloudflareTunnel) None "" ""
    (om_Name (ct_Meta cloudflareTunnel)) (om_Namespace (ct_Meta cloudflareTunnel))
    (status_TunnelID (ct_Status cloudflareTunnel)) "".

Definition Reconcile (req : NamespacedName) : M W (Result * option error) :=
  logger_Info 0 "Reconciling..." ;;
  let namespacedName := req in
  let* (cloudflareTunnel, err) := Get KCloudflareTunnel namespacedName in
  match err with
  | Some e =>
      logger_Error (Some e) "could not fetch CloudflareTunnel" ;;
      ret (zero_Result, Some e)
  | None =>
  logger_Info 1 "Resource fetched" ;;
  put_r (expand cloudflareTunnel) ;;
  let* err := fetchDecodeSecret in
  match err with
  | Some e => ret (zero_Result, Some e)
  | None =>
  let* err := createTunnelRemote in
  match err with
  | Some e => ret (zero_Result, Some e)
  | None =>
  let* (secretCreate, err) := createSecret cloudflareTunnel in
  match err with
  | Some e => ret (zero_Result, Some e)
  | None =>
  let* (url, err) := getTargetURL in
  match err with
  | Some e =>
      logger_Error (Some e) "could not generate URL" ;;
      ret (zero_Result, Some e)
  | None =>
  let* (configMapCreate, err) := createConfigMap cloudflareTunnel url in
  match err with
  | Some e => ret (zero_Result, Some e)
  | None =>
  let* (_, err) := createDeployment cloudflareTunnel secretCreate configMapCreate in
  match err with
  | Some e => ret (zero_Result, Some e)
  | None =>
  let* err := createDNSCNAME in
  match err with
  | Some e => ret (zero_Result, Some e)
  | None => ret (zero_Result, None)
  end end end end end end end end.

(** The state in which line 85 runs: the custom resource was fetched
    (the world answered [w]) and [r.TunnelExpanded] was built from it. *)
Definition loaded (s : State W) (req : NamespacedName)
    (cloudflareTunnel : CloudflareTunnel) (w : W) : State W :=
  mkState (expand cloudflareTunnel) w
    (st_calls s ++ [CallGet KCloudflareTunnel req])
    ((st_log s ++ [LogInfo 0 "Reconciling..."]) ++ [LogInfo 1 "Resource fetched"]).

End Controller.

(* ================================================================== *)
(** * An in-memory cluster and provider *)
(* ================================================================== *)

(** The metadata of an object of any kind. *)
Definition meta_of (k : Kind) : obj k -> ObjectMeta :=
  match k with
  | KCloudflareTunnel => ct_Meta
  | KSecret => sec_Meta
  | KConfigMap => cm_Meta
  | KDeployment => dep_Meta
  | KService => svc_Meta
  end.

Definition with_meta (k : Kind) (m : ObjectMeta) : obj k -> obj k :=
  match k with
  | KCloudflareTunnel => fun o => mkCloudflareTunnel m (ct_Spec o) (ct_Status o)
  | KSecret => fun o => mkSecret m (sec_Data o)
  | KConfigMap => fun o => mkConfigMap m (cm_Data o)
  | KDeployment => fun o =>
      mkDeployment m (dep_Replicas o) (dep_SecretVolume o) (dep_ConfigMapVolume o)
  | KService => fun o => mkService m (svc_Ports o) (svc_Type o) (svc_Ingress o)
  end.

(** Instances of the collaborators that keep everything in memory: an
    object store per kind, the provider's tunnels, zones and DNS records,
    and a finite supply of random bytes.  They answer the way the real
    services do on the paths exercised below, and serve to run the
    controller on concrete inputs. *)
Module Fake.

Record World := mkWorld {
  cloudflareTunnels : gmap (string * string) CloudflareTunnel;  (* by (namespace, name) *)
  secrets : gmap (string * string) Secret;
  configMaps : gmap (string * string) ConfigMap;
  deployments : gmap (string * string) Deployment;
  services : gmap (string * string) Service;
  tunnels : list (Tunnel * string);         (* live tunnels with their secret *)
  zones : gmap string string;               (* zone name to zone id *)
  dnsRecords : list (string * DNSRecord);   (* zone id, record *)
  entropy : list byte;                      (* what the random source still holds *)
  nextTunnel : nat }.                       (* numbers the tunnels created *)

Definition objects (k : Kind) (w : World) : gmap (string * string) (obj k) :=
  match k with
  | KCloudflareTunnel => cloudflareTunnels w
  | KSecret => secrets w
  | KConfigMap => configMaps w
  | KDeployment => deployments w
  | KService => services w
  end.

Definition set_objects (k : Kind) : gmap (string * string) (obj k) -> World -> World :=
  match k with
  | KCloudflareTunnel => fun m w =>
      mkWorld m (secrets w) (configMaps w) (deployments w) (services w)
        (tunnels w) (zones w) (dnsRecords w) (entropy w) (nextTunnel w)
  | KSecret => fun m w =>
      mkWorld (cloudflareTunnels w) m (configMaps w) (deployments w) (services w)
        (tunnels w) (zones w) (dnsRecords w) (entropy w) (nextTunnel w)
  | KConfigMap => fun m w =>
      mkWorld (cloudflareTunnels w) (secrets w) m (deployments w) (services w)
        (tunnels w) (zones w) (dnsRecords w) (entropy w) (nextTunnel w)
  | KDeployment => fun m w =>
      mkWorld (cloudflareTunnels w) (secrets w) (configMaps w) m (services w)
        (tunnels w) (zones w) (dnsRecords w) (entropy w) (nextTunnel w)
  | KService => fun m w =>
      mkWorld (cloudflareTunnels w) (secrets w) (configMaps w) (deployments w) m
        (tunnels w) (zones w) (dnsRecords w) (entropy w) (nextTunnel w)
  end.

Definition key_of (k : Kind) (o : obj k) : string * string :=
  (om_Namespace (meta_of k o), om_Name (meta_of k o)).

Definition not_found (name : string) : error :=
  StatusError StatusReasonNotFound (name +:+ " not found").

Definition get (k : Kind) (key : NamespacedName) (w : World) : (obj k * option error) * World :=
  match objects k w !! (nn_Namespace key, nn_Name key) with
  | Some o => ((o, None), w)
  | None => ((zero_obj k, Some (not_found (nn_Name key))), w)
  end.

Definition create (k : Kind) (o : obj k) (w : World) : (obj k * option error) * World :=
  match objects k w !! key_of k o with
  | Some _ =>
      ((o, Some (StatusError StatusReasonAlreadyExists
                   (om_Name (meta_of k o) +:+ " already exists"))), w)
  | None => ((o, None), set_objects k (<[key_of k o := o]> (objects k w)) w)
  end.

Definition update (k : Kind) (o : obj k) (w : World) : (obj k * option error) * World :=
  match objects k w !! key_of k o with
  | Some _ => ((o, None), set_objects k (<[key_of k o := o]> (objects k w)) w)
  | None => ((o, Some (not_found (om_Name (meta_of k o)))), w)
  end.

#[export] Instance client : Client World := {|
  client_Get := get;
  client_Create := create;
  client_Update := update |}.

(** The provider. *)

Definition newWithAPIToken (token : string) (w : World) : (option API * option error) * World :=
  if (String.length token =? 0)%nat
  then ((None, Some (ExternalError "cloudflare" "invalid credentials: API Token must not be empty")), w)
  else ((Some (mkAPI token ""), None), w).

Definition matches (params : TunnelListParams) (t : Tunnel * string) : bool :=
  String.eqb (tun_Name (fst t)) (tlp_Name params)
  && (String.eqb (tlp_UUID params) "" || String.eqb (tun_ID (fst t)) (tlp_UUID params)).

Definition listTunnels (cf : API) (params : TunnelListParams) (w : World)
  : (list Tunnel * option error) * World :=
  ((map fst (List.filter (matches params) (tunnels w)), None), w).

Definition createTunnel (cf : API) (params : TunnelCreateParams) (w : World)
  : (Tunnel * option error) * World :=
  let t := mkTunnel ("tunnel-" +:+ pretty (nextTunnel w)) (tcp_Name params) in
  ((t, None),
   mkWorld (cloudflareTunnels w) (secrets w) (configMaps w) (deployments w) (services w)
     (tunnels w ++ [(t, tcp_Secret params)]) (zones w) (dnsRecords w) (entropy w)
     (S (nextTunnel w))).

(** The connector token of a tunnel: the base64 text of its identifier
    and its secret. *)
Definition tunnelToken (cf : API) (params : TunnelTokenParams) (w : World)
  : (string * option error) * World :=
  match List.find (fun t => String.eqb (tun_ID (fst t)) (ttp_ID params)) (tunnels w) with
  | Some t =>
      ((Base64.EncodeToString (list_byte_of_string (tun_ID (fst t) +:+ ":" +:+ snd t)), None), w)
  | None => (("", Some (ExternalError "cloudflare" "tunnel not found")), w)
  end.

Definition zoneIDByName (cf : API) (zone : string) (w : World)
  : (string * option error) * World :=
  match zones w !! zone with
  | Some id => ((id, None), w)
  | None => (("", Some (ExternalError "cloudflare" "zone could not be found")), w)
  end.

Definition listDNSRecords (cf : API) (zoneID : string) (filter : DNSRecord) (w : World)
  : (list DNSRecord * option error) * World :=
  ((map snd
      (List.filter
         (fun zr => String.eqb (fst zr) zoneID
                    && String.eqb (dns_Type (snd zr)) (dns_Type filter)
                    && String.eqb (dns_Name (snd zr)) (dns_Name filter))
         (dnsRecords w)), None), w).

Definition createDNSRecord (cf : API) (zoneID : string) (rr : DNSRecord) (w : World)
  : (option DNSRecord * option error) * World :=
  ((Some rr, None),
   mkWorld (cloudflareTunnels w) (secrets w) (configMaps w) (deployments w) (services w)
     (tunnels w) (zones w) (dnsRecords w ++ [(zoneID, rr)]) (entropy w) (nextTunnel w)).

#[export] Instance cloudflare : Cloudflare World := {|
  cf_NewWithAPIToken := newWithAPIToken;
  cf_Tunnels := listTunnels;
  cf_CreateTunnel := createTunnel;
  cf_TunnelToken := tunnelToken;
  cf_ZoneIDByName := zoneIDByName;
  cf_DNSRecords := listDNSRecords;
  cf_CreateDNSRecord := createDNSRecord |}.

(** The random source hands out its bytes in order and fails once it
    holds fewer than asked for. *)
Definition read (n : nat) (w : World) : (list byte * option error) * World :=
  if (n <=? length (entropy w))%nat then
    ((firstn n (entropy w), None),
     mkWorld (cloudflareTunnels w) (secrets w) (configMaps w) (deployments w) (services w)
       (tunnels w) (zones w) (dnsRecords w) (skipn n (entropy w)) (nextTunnel w))
  else (([], Some (ExternalError "crypto/rand" "unexpected EOF")), w).

#[export] Instance cryptoRand : CryptoRand World := {| rand_source := read |}.

(** A decoder for padded base64 text without line breaks, the inverse
    of [Base64.EncodeToString]. *)
Fixpoint position (c : ascii) (alphabet : string) (i : N) : option N :=
  match alphabet with
  | EmptyString => None
  | String a rest => if Ascii.eqb a c then Some i else position c rest (N.succ i)
  end.

Definition dec (c : ascii) : option N := position c Base64.encodeStd 0%N.

Definition low_byte (n : N) : byte :=
  match Byte.of_N (N.land n 255) with
  | Some b => b
  | None => x00
  end.

Definition corrupt : list byte * option error :=
  ([], Some (ExternalError "encoding/base64" "illegal base64 data")).

Definition is_nil {A} (l : list A) : bool :=
  match l with [] => true | _ => false end.

Fixpoint decode (src : list ascii) : list byte * option error :=
  match src with
  | [] => ([], None)
  | c0 :: c1 :: c2 :: c3 :: rest =>
      match dec c0, dec c1 with
      | Some v0, Some v1 =>
          let b0 := low_byte (N.lor (N.shiftl v0 2) (N.shiftr v1 4)) in
          match dec c2 with
          | None =>
              if Ascii.eqb c2 Base64.StdPadding && Ascii.eqb c3 Base64.StdPadding && is_nil rest
              then ([b0], None) else corrupt
          | Some v2 =>
              let b1 := low_byte (N.lor (N.shiftl v1 4) (N.shiftr v2 2)) in
              match dec c3 with
              | None =>
                  if Ascii.eqb c3 Base64.StdPadding && is_nil rest
                  then ([b0; b1], None) else corrupt
              | Some v3 =>
                  let b2 := low_byte (N.lor (N.shiftl v2 6) v3) in
                  let (bs, err) := decode rest in
                  (b0 :: b1 :: b2 :: bs, err)
              end
          end
      | _, _ => corrupt
      end
  | _ => corrupt
  end.

Definition decodeString (s : string) : list byte * option error :=
  decode (list_ascii_of_string s).

(** The owner reference is stamped onto the object; an owner in another
    namespace is refused. *)
Definition setControllerReference (owner : CloudflareTunnel) (k : Kind) (o : obj k)
  : obj k * option error :=
  let m := meta_of k o in
  if String.eqb (om_Namespace m) (om_Namespace (ct_Meta owner)) then
    (with_meta k
       (mkObjectMeta (om_Name m) (om_Namespace m)
          (om_OwnerReferences m
             ++ [mkOwnerReference "CloudflareTunnel" (om_Name (ct_Meta owner)) true])) o,
     None)
  else (o, Some (ExternalError "controllerutil" "cross-namespace owner references are disallowed")).

#[export] Instance libraries : Libraries := {|
  SetControllerReference := setControllerReference;
  DecodeString := decodeString |}.

(** Modelled from the spec: [constants.CNAMESuffix] of
    [controllers/constants], "a fixed provider-specific suffix". *)
Definition cnameSuffix : string := ".cfargotunnel.com".

(** Modelled from the spec: the builder [GetSecret] of [controllers/models];
    the credential resource carries the tunnel identifier and the
    connection secret. *)
Definition getSecret (m : SecretModel) : Secret :=
  mkSecret (mkObjectMeta (sm_Name m) (sm_Namespace m) [])
    {[ "credentials.json" :=
         list_byte_of_string (sm_TunnelID m +:+ ":" +:+ sm_TunnelSecret m) ]}.

(** Modelled from the spec: the builder [GetConfigMap] of
    [controllers/models]; the config resource maps the public hostname to
    the target URL and ends with a catch-all rule. *)
Definition getConfigMap (m : ConfigMapModel) : ConfigMap * option error :=
  (mkConfigMap (mkObjectMeta (cmm_Name m) (cmm_Namespace m) [])
     {[ "config.yaml" :=
          "tunnel: " +:+ cmm_TunnelID m +:+ "; ingress: " +:+ cmm_Domain m +:+ " -> "
            +:+ cmm_Service m +:+ "; http_status:404" ]},
   None).

(** Modelled from the spec: the builder [GetDeployment] of
    [controllers/models]; the workload resource takes its replica count
    from the spec and mounts the two resources above. *)
Definition getDeployment (m : DeploymentModel) : Deployment :=
  mkDeployment (mkObjectMeta (dm_Name m) (dm_Namespace m) []) (dm_Replicas m)
    (match dm_Secret m with Some s => om_Name (sec_Meta s) | None => "" end)
    (match dm_ConfigMap m with Some c => om_Name (cm_Meta c) | None => "" end).

#[export] Instance models : Models := {|
  CNAMESuffix := cnameSuffix;
  GetSecret := getSecret;
  GetConfigMap := getConfigMap;
  GetDeployment := getDeployment |}.

(** ** Concrete clusters *)

(** The custom resource [default/foo]: tunnel [t.example.com] in zone
    [example.com] in front of the service [ref], credentials in the
    secret [cf-creds], and [id] as recorded tunnel identifier. *)
Definition tunnel_for (ref : ServiceRef) (id : string) : CloudflareTunnel :=
  mkCloudflareTunnel (mkObjectMeta "foo" "default" [])
    (mkCloudflareTunnelSpec "example.com" "t.example.com" ref 1 "cf-creds")
    (mkCloudflareTunnelStatus id).

Definition web_http : ServiceRef := mkServiceRef "web" "default" 80 "http".
Definition web_https : ServiceRef := mkServiceRef "web" "default" 8080 "https".

(** [foo] records no tunnel identifier. *)
Definition foo : CloudflareTunnel := tunnel_for web_http "".

Definition foo_key : NamespacedName := mkNamespacedName "foo" "default".

Definition cf_creds : Secret :=
  mkSecret (mkObjectMeta "cf-creds" "default" [])
    {[ "token" := list_byte_of_string "tok"; "accountID" := list_byte_of_string "acct" ]}.

Definition web (ports : list ServicePort) (type : string)
    (ingress : list LoadBalancerIngress) : Service :=
  mkService (mkObjectMeta "web" "default" []) ports type ingress.

Definition web80 : Service := web [mkServicePort "http" 80] ServiceTypeClusterIP [].

(** The service behind a load balancer, with and without an address,
    and a service that exposes port 443 only. *)
Definition web_lb : Service :=
  web [mkServicePort "https" 8080] ServiceTypeLoadBalancer
    [mkLoadBalancerIngress "10.0.0.5" ""].

Definition web_lb_pending : Service :=
  web [mkServicePort "https" 8080] ServiceTypeLoadBalancer [].

Definition web443 : Service := web [mkServicePort "https" 443] ServiceTypeClusterIP [].

(** [foo] in front of the https service; [foo] with the identifier
    [tunnel-7] recorded. *)
Definition foo_https : CloudflareTunnel := tunnel_for web_https "".
Definition foo7 : CloudflareTunnel := tunnel_for web_http "tunnel-7".

(** Tunnels on the provider: two of the name [foo]; the one recorded by
    [foo7]. *)
Definition two_foos : list (Tunnel * string) :=
  [(mkTunnel "id-a" "foo", "secret-a"); (mkTunnel "id-b" "foo", "secret-b")].

Definition seven : list (Tunnel * string) := [(mkTunnel "tunnel-7" "foo", "secret-7")].

(** A CNAME record of the domain that points elsewhere. *)
Definition stale : DNSRecord :=
  mkDNSRecord "CNAME" "t.example.com" "old-tunnel.cfargotunnel.com" 300.

(** A cluster with the custom resource [cr], the credentials and the
    target service [svc], and none of the children; the provider knows
    the zone and the tunnels [ts], and no DNS record. *)
Definition cluster (cr : CloudflareTunnel) (svc : Service) (ts : list (Tunnel * string))
  : World :=
  mkWorld {[ ("default", "foo") := cr ]} {[ ("default", "cf-creds") := cf_creds ]}
    ∅ ∅ {[ ("default", "web") := svc ]}
    ts {[ "example.com" := "zone-1" ]} [] (repeat "*"%byte 64) (length ts).

Definition without_credentials (w : World) : World := set_objects KSecret ∅ w.

Definition with_record (rr : DNSRecord) (w : World) : World :=
  mkWorld (cloudflareTunnels w) (secrets w) (configMaps w) (deployments w) (services w)
    (tunnels w) (zones w) (dnsRecords w ++ [("zone-1", rr)]) (entropy w) (nextTunnel w).

(** The reconciler before its first pass. *)
Definition zero_TunnelExpanded : TunnelExpanded :=
  mkTunnelExpanded (mkCloudflareTunnelSpec "" "" (mkServiceRef "" "" 0 "") 0 "")
    None "" "" "" "" "" "".

Definition start (w : World) : State World := mkState zero_TunnelExpanded w [] [].

(** The state the steps after credential lookup run in: [cr] expanded,
    with the credentials of [cf_creds] and the SDK handle [api]. *)
Definition expanded (cr : CloudflareTunnel) (api : option API) : TunnelExpanded :=
  set_API api (set_AccountToken "tok" (set_AccountTag "acct" (expand cr))).

Definition at_step (cr : CloudflareTunnel) (api : option API) (w : World) : State World :=
  mkState (expanded cr api) w [] [].

Definition handle : API := mkAPI "tok" "acct".

(** The next pass: same reconciler, the world as the last pass left it,
    calls and log counted afresh. *)
Definition again (s : State World) : State World :=
  mkState (st_r s) (st_world s) [] [].

(** The world after one pass over [foo_key]. *)
Definition pass (w : World) : World :=
  st_world (snd (Reconcile foo_key (start w))).

(** The cluster of [foo] in front of [web80] after four passes: the
    tunnel, the three children and the DNS record all exist. *)
Definition settled : World := pass (pass (pass (pass (cluster foo web80 [])))).

End Fake.

(* ================================================================== *)
(** * Vocabulary of the statements *)
(* ================================================================== *)

(** [emits P m]: whatever the state, the calls [m] adds all satisfy [P]. *)
Definition emits {W A} (P : Call -> Prop) (m : M W A) : Prop :=
  forall s, exists new, st_calls (snd (m s)) = st_calls s ++ new /\ Forall P new.

(** [quiet m]: [m] always returns and touches nothing but the log. *)
Definition quiet {W A} (m : M W A) : Prop :=
  forall s, exists a l,
    m s = (Returned a, mkState (st_r s) (st_world s) (st_calls s) (st_log s ++ l)).

(** The calls of each step of the pass. *)
Definition is_child (k : Kind) : bool :=
  match k with
  | KSecret | KConfigMap | KDeployment => true
  | _ => false
  end.

Definition is_tunnel_call (c : Call) : bool :=
  match c with
  | CallNewWithAPIToken _ | CallTunnels _ _ | CallCreateTunnel _ _
  | CallTunnelToken _ _ | CallRandRead _ => true
  | _ => false
  end.

Definition is_sync_call (c : Call) : bool :=
  match c with
  | CallGet k _ | CallCreate k _ | CallUpdate k _ => is_child k
  | _ => false
  end.

Definition is_target_call (c : Call) : bool :=
  match c with
  | CallGet KService _ => true
  | _ => false
  end.

Definition is_dns_call (c : Call) : bool :=
  match c with
  | CallZoneIDByName _ _ | CallDNSRecords _ _ _ | CallCreateDNSRecord _ _ _ => true
  | _ => false
  end.

(** The calls of the steps after the remote tunnel: children, target, DNS. *)
Definition is_later_call (c : Call) : bool :=
  is_sync_call c || is_target_call c || is_dns_call c.

(** The calls a pass can make at all. *)
Definition is_pass_call (c : Call) : bool :=
  is_credential_read c || is_tunnel_call c || is_sync_call c || is_target_call c
  || is_dns_call c.

(** The port asked for is among the ports the service exposes. *)
Definition has_port (want : Z) (svc : Service) : bool :=
  existsb (fun p => (sp_Port p =? want)%Z) (svc_Ports svc).

(** The parameters of the tunnel listing for a reconciler state. *)
Definition listing_of (r : TunnelExpanded) : TunnelListParams :=
  mkTunnelListParams (te_AccountTag r) (te_Name r) (Some false) (te_TunnelID r).

(** The two shapes of target URL. *)
Definition ingress_url (ref : ServiceRef) (ingress : LoadBalancerIngress) : string :=
  sr_Protocol ref +:+ "://" +:+ lbi_IP ingress +:+ ":" +:+ Itoa (sr_Port ref).

Definition cluster_url (ref : ServiceRef) : string :=
  sr_Protocol ref +:+ "://" +:+ sr_Name ref +:+ "." +:+ sr_Namespace ref +:+ ":"
    +:+ Itoa (sr_Port ref).

(* ================================================================== *)
(** * Collaborators that fail on demand *)
(* ================================================================== *)

Definition Kind_eqb (a b : Kind) : bool :=
  match a, b with
  | KCloudflareTunnel, KCloudflareTunnel | KSecret, KSecret | KConfigMap, KConfigMap
  | KDeployment, KDeployment | KService, KService => true
  | _, _ => false
  end.

(** The in-memory cluster and provider with a list of faults: a call whose
    fault is listed fails (or misbehaves) and leaves the world alone, any
    other call is answered as in [Fake]. *)
Module Faulty.

Inductive Fault :=
| FailGet (k : Kind)
| FailCreate (k : Kind)
| FailUpdate (k : Kind)
| FailNewWithAPIToken
| NilHandle                     (* the constructor returns nil, nil *)
| FailTunnels
| FailCreateTunnel
| FailTunnelToken
| GarbledToken                  (* the token is not base64 text *)
| FailZoneIDByName
| FailDNSRecords
| FailCreateDNSRecord
| FailRand.

Definition Fault_eqb (a b : Fault) : bool :=
  match a, b with
  | FailGet k, FailGet k' | FailCreate k, FailCreate k' | FailUpdate k, FailUpdate k' =>
      Kind_eqb k k'
  | FailNewWithAPIToken, FailNewWithAPIToken | NilHandle, NilHandle
  | FailTunnels, FailTunnels | FailCreateTunnel, FailCreateTunnel
  | FailTunnelToken, FailTunnelToken | GarbledToken, GarbledToken
  | FailZoneIDByName, FailZoneIDByName | FailDNSRecords, FailDNSRecords
  | FailCreateDNSRecord, FailCreateDNSRecord | FailRand, FailRand => true
  | _, _ => false
  end.

Record World := mkWorld {
  inner : Fake.World;
  faults : list Fault }.

Definition broken (f : Fault) (w : World) : bool := existsb (Fault_eqb f) (faults w).

Definition lift {A} (run : Fake.World -> A * Fake.World) (w : World) : A * World :=
  let (a, i) := run (inner w) in (a, mkWorld i (faults w)).

Definition server_error : error := StatusError StatusReasonUnknown "internal error".
Definition provider_error : error := ExternalError "cloudflare" "HTTP status 500".
Definition rand_error : error := ExternalError "crypto/rand" "read failed".

Definition get (k : Kind) (key : NamespacedName) (w : World) : (obj k * option error) * World :=
  if broken (FailGet k) w then ((zero_obj k, Some server_error), w)
  else lift (Fake.get k key) w.

Definition create (k : Kind) (o : obj k) (w : World) : (obj k * option error) * World :=
  if broken (FailCreate k) w then ((o, Some server_error), w)
  else lift (Fake.create k o) w.

Definition update (k : Kind) (o : obj k) (w : World) : (obj k * option error) * World :=
  if broken (FailUpdate k) w then ((o, Some server_error), w)
  else lift (Fake.update k o) w.

#[global] Instance client : Client World := {|
  client_Get := get;
  client_Create := create;
  client_Update := update |}.

Definition newWithAPIToken (token : string) (w : World) : (option API * option error) * World :=
  if broken FailNewWithAPIToken w then ((None, Some provider_error), w)
  else if broken NilHandle w then ((None, None), w)
  else lift (Fake.newWithAPIToken token) w.

Definition listTunnels (cf : API) (params : TunnelListParams) (w : World)
  : (list Tunnel * option error) * World :=
  if broken FailTunnels w then (([], Some provider_error), w)
  else lift (Fake.listTunnels cf params) w.

Definition createTunnel (cf : API) (params : TunnelCreateParams) (w : World)
  : (Tunnel * option error) * World :=
  if broken FailCreateTunnel w then ((zero_Tunnel, Some provider_error), w)
  else lift (Fake.createTunnel cf params) w.

Definition tunnelToken (cf : API) (params : TunnelTokenParams) (w : World)
  : (string * option error) * World :=
  if broken FailTunnelToken w then (("", Some provider_error), w)
  else if broken GarbledToken w then (("not base64!", None), w)
  else lift (Fake.tunnelToken cf params) w.

Definition zoneIDByName (cf : API) (zone : string) (w : World)
  : (string * option error) * World :=
  if broken FailZoneIDByName w then (("", Some provider_error), w)
  else lift (Fake.zoneIDByName cf zone) w.

Definition listDNSRecords (cf : API) (zoneID : string) (filter : DNSRecord) (w : World)
  : (list DNSRecord * option error) * World :=
  if broken FailDNSRecords w then (([], Some provider_error), w)
  else lift (Fake.listDNSRecords cf zoneID filter) w.

Definition createDNSRecord (cf : API) (zoneID : string) (rr : DNSRecord) (w : World)
  : (option DNSRecord * option error) * World :=
  if broken FailCreateDNSRecord w then ((None, Some provider_error), w)
  else lift (Fake.createDNSRecord cf zoneID rr) w.

#[global] Instance cloudflare : Cloudflare World := {|
  cf_NewWithAPIToken := newWithAPIToken;
  cf_Tunnels := listTunnels;
  cf_CreateTunnel := createTunnel;
  cf_TunnelToken := tunnelToken;
  cf_ZoneIDByName := zoneIDByName;
  cf_DNSRecords := listDNSRecords;
  cf_CreateDNSRecord := createDNSRecord |}.

Definition read (n : nat) (w : World) : (list byte * option error) * World :=
  if broken FailRand w then (([], Some rand_error), w)
  else lift (Fake.read n) w.

#[global] Instance cryptoRand : CryptoRand World := {| rand_source := read |}.

(** Libraries whose [SetControllerReference] refuses every object, and
    builders whose [GetConfigMap] fails. *)
Definition owner_error : error := ExternalError "controllerutil" "object is already owned".

Definition refusing : Libraries := {|
  SetControllerReference := fun _ k o => (o, Some owner_error);
  DecodeString := Fake.decodeString |}.

Definition build_error : error := ExternalError "models" "could not marshal the configuration".

Definition failing_builders : Models := {|
  CNAMESuffix := Fake.cnameSuffix;
  GetSecret := Fake.getSecret;
  GetConfigMap := fun m => (zero_obj KConfigMap, Some build_error);
  GetDeployment := Fake.getDeployment |}.

(** The state of a step, and of the start of a pass, over a cluster of
    [Fake] with the faults [fs]. *)
Definition at_step (cr : CloudflareTunnel) (api : option API) (fs : list Fault)
    (w : Fake.World) : State World :=
  mkState (Fake.expanded cr api) (mkWorld w fs) [] [].

Definition start (fs : list Fault) (w : Fake.World) : State World :=
  mkState Fake.zero_TunnelExpanded (mkWorld w fs) [] [].

End Faulty.

(* ================================================================== *)
(** * Vocabulary of the further statements *)
(* ================================================================== *)


(** [on_return m Q]: whenever [m] returns [a], the calls it added and [a]
    are related by [Q]. *)
Definition on_return {W A} (m : M W A) (Q : A -> list Call -> Prop) : Prop :=
  forall s a, fst (m s) = Returned a ->
    exists new, st_calls (snd (m s)) = st_calls s ++ new /\ Q a new.

(** [keeps_r m]: [m] never assigns a field of the reconciler. *)
Definition keeps_r {W A} (m : M W A) : Prop :=
  forall s, st_r (snd (m s)) = st_r s.

(** A [Create] or an [Update] on the cluster. *)
Definition is_cluster_write (c : Call) : bool :=
  match c with
  | CallCreate _ _ | CallUpdate _ _ => true
  | _ => false
  end.


(** A synchronisation fetches, then creates or updates, once. *)
Definition sync_shape (k : Kind) (l : list Call) : bool :=
  match l with
  | [] => true
  | [CallGet k1 _] => Kind_eqb k k1
  | [CallGet k1 _; CallCreate k2 _] | [CallGet k1 _; CallUpdate k2 _] =>
      Kind_eqb k k1 && Kind_eqb k k2
  | _ => false
  end.







(** What a synchronisation writes is the object [SetControllerReference]
    returned, and only when it returned no error. *)
Definition stamped (k : Kind) (stamp : obj k * option error) (c : Call) : Prop :=
  is_cluster_write c = true ->
  snd stamp = None /\ (c = CallCreate k (fst stamp) \/ c = CallUpdate k (fst stamp)).

(** A step that is no synchronisation writes nothing to the cluster. *)
Definition writes_nothing (new : list Call) : Prop := List.filter is_cluster_write new = [].

(** A synchronisation that reports no error made one write, an update. *)
Definition updated_once (k : Kind) {A} (a : A * option error) (new : list Call) : Prop :=
  snd a = None -> exists d, List.filter is_cluster_write new = [CallUpdate k d].

(* ================================================================== *)
(** * Properties *)
(* ================================================================== *)

Section MonadFacts.

Context {W : Type}.

Lemma bind_returned {A B} (m : M W A) (k : A -> M W B) s a s' :
  m s = (Returned a, s') -> bind m k s = k a s'.
Proof. intros H. unfold bind. now rewrite H. Qed.

Lemma bind_panicked {A B} (m : M W A) (k : A -> M W B) s p s' :
  m s = (Panicked p, s') -> bind m k s = (Panicked p, s').
Proof. intros H. unfold bind. now rewrite H. Qed.

Lemma emits_weaken {A} (P Q : Call -> Prop) (m : M W A) :
  (forall c, P c -> Q c) -> emits P m -> emits Q m.
Proof.
  intros HPQ Hm s. destruct (Hm s) as (new & Hc & Hall).
  exists new. split; [exact Hc|]. eapply Forall_impl; eauto.
Qed.

Lemma emits_ret {A} P (a : A) : emits (W:=W) P (ret a).
Proof. intros s. exists []. cbn. now rewrite app_nil_r. Qed.

Lemma emits_bind {A B} P (m : M W A) (k : A -> M W B) :
  emits P m -> (forall a, emits P (k a)) -> emits P (bind m k).
Proof.
  intros Hm Hk s. unfold bind.
  destruct (Hm s) as (n1 & Hc1 & Hall1).
  destruct (m s) as [[a|p] s1]; cbn in Hc1.
  - destruct (Hk a s1) as (n2 & Hc2 & Hall2).
    exists (n1 ++ n2). split.
    + rewrite Hc2, Hc1. now rewrite app_assoc.
    + apply Forall_app; auto.
  - exists n1. cbn. auto.
Qed.

Lemma emits_call {A} (P : Call -> Prop) c (f : W -> A * W) :
  P c -> emits P (call c f).
Proof.
  intros Hc s. unfold call. destruct (f (st_world s)) as [a w].
  exists [c]. cbn. split; [reflexivity|]. now constructor.
Qed.

Lemma emits_quiet {A} P (m : M W A) : quiet m -> emits P m.
Proof.
  intros Hq s. destruct (Hq s) as (a & l & ->).
  exists []. cbn. now rewrite app_nil_r.
Qed.

Lemma emits_do_panic {A} P p : emits (W:=W) (A:=A) P (do_panic p).
Proof. intros s. exists []. cbn. now rewrite app_nil_r. Qed.

Lemma emits_get_r P : emits (W:=W) P get_r.
Proof. intros s. exists []. cbn. now rewrite app_nil_r. Qed.

Lemma emits_put_r P t : emits (W:=W) P (put_r t).
Proof. intros s. exists []. cbn. now rewrite app_nil_r. Qed.

Lemma emits_modify_r P f : emits (W:=W) P (modify_r f).
Proof. intros s. exists []. cbn. now rewrite app_nil_r. Qed.

Lemma emits_emit_log P e : emits (W:=W) P (emit_log e).
Proof. intros s. exists []. cbn. now rewrite app_nil_r. Qed.

Lemma emits_deref {A} P (p : option A) : emits (W:=W) P (deref p).
Proof. destruct p; [apply emits_ret | apply emits_do_panic]. Qed.

Lemma emits_at_index {A} P (l : list A) i : emits (W:=W) P (at_index l i).
Proof. unfold at_index. destruct (nth_error l i); [apply emits_ret | apply emits_do_panic]. Qed.

Lemma quiet_ret {A} (a : A) : quiet (W:=W) (ret a).
Proof. intros s. exists a, []. cbn. rewrite app_nil_r. now destruct s. Qed.

Lemma quiet_emit_log e : quiet (W:=W) (emit_log e).
Proof. intros s. exists tt, [e]. reflexivity. Qed.

Lemma quiet_bind {A B} (m : M W A) (k : A -> M W B) :
  quiet m -> (forall a, quiet (k a)) -> quiet (bind m k).
Proof.
  intros Hm Hk s. destruct (Hm s) as (a & l1 & H1).
  unfold bind. rewrite H1.
  destruct (Hk a (mkState (st_r s) (st_world s) (st_calls s) (st_log s ++ l1)))
    as (b & l2 & H2).
  exists b, (l1 ++ l2). rewrite H2. cbn. now rewrite app_assoc.
Qed.

Lemma fill_length (buf data : list byte) : length (fill buf data) = length buf.
Proof.
  unfold fill. rewrite length_app, length_firstn, length_skipn. lia.
Qed.

Lemma fill_exact (buf data : list byte) :
  length data = length buf -> fill buf data = data.
Proof.
  intros H. unfold fill. rewrite <- H, firstn_all, skipn_all2 by lia.
  apply app_nil_r.
Qed.

End MonadFacts.

(** ** base64 *)

(** The test vectors of RFC 4648, section 10. *)
Example EncodeToString_rfc4648 :
  map (fun s => Base64.EncodeToString (list_byte_of_string s))
    [""; "f"; "fo"; "foo"; "foob"; "fooba"; "foobar"]
  = [""; "Zg=="; "Zm8="; "Zm9v"; "Zm9vYg=="; "Zm9vYmE="; "Zm9vYmFy"].
Proof. reflexivity. Qed.

(** Three bytes give four characters, a remainder is padded to four. *)
Lemma Encode_length (src : list byte) :
  length (Base64.Encode src) = (4 * ((length src + 2) / 3))%nat.
Proof.
  assert (Hall : forall n (l : list byte), (length l <= n)%nat ->
                   length (Base64.Encode l) = (4 * ((length l + 2) / 3))%nat).
  { induction n as [|n IH]; intros l Hl.
    - destruct l; [reflexivity | cbn in Hl; lia].
    - destruct l as [|b0 [|b1 [|b2 rest]]]; try reflexivity.
      cbn [Base64.Encode length]. rewrite IH by (cbn in Hl; lia).
      replace (S (S (S (length rest))) + 2)%nat with (1 * 3 + (length rest + 2))%nat by lia.
      rewrite Nat.div_add_l by lia. lia. }
  apply (Hall (length src)). lia.
Qed.

(** ** Target URL derivation *)

Section TargetURL.

Context {W : Type} `{!Client W} `{!Cloudflare W} `{!CryptoRand W}.
Context `{!Models} `{!Libraries}.

Lemma quiet_scan_ports ports want port : quiet (W:=W) (scan_ports ports want port).
Proof.
  induction ports as [|p ports IH]; cbn.
  - apply quiet_ret.
  - destruct (sp_Port p =? want)%Z; [|exact IH].
    apply quiet_bind; [apply quiet_emit_log | intros _; apply quiet_ret].
Qed.

(** Without a port of the number asked for, the scan leaves [port] as it
    was and logs nothing. *)
Lemma scan_ports_no_match ports want port (s : State W) :
  existsb (fun p => (sp_Port p =? want)%Z) ports = false ->
  scan_ports ports want port s = (Returned port, s).
Proof.
  induction ports as [|p ports IH]; cbn; [reflexivity|].
  intros Hex. apply orb_false_iff in Hex as [Hp Hrest]. rewrite Hp. auto.
Qed.

(** What [getTargetURL] does once the service was found: the ports play
    no part in it. *)
Lemma getTargetURL_found (s : State W) svc w :
  let ref := cts_Service (te_Spec (st_r s)) in
  client_Get KService (mkNamespacedName (sr_Name ref) (sr_Namespace ref)) (st_world s)
    = ((svc, None), w) ->
  fst (getTargetURL s) =
    if String.eqb (svc_Type svc) ServiceTypeLoadBalancer then
      match svc_Ingress svc with
      | [] => Panicked (IndexOutOfRange 0 0)
      | ingress :: _ => Returned (ingress_url ref ingress, None)
      end
    else Returned (cluster_url ref, None).
Proof.
  intros ref HGet. unfold getTargetURL, Get, call, get_r, bind at 1 2. cbn.
  fold ref. rewrite HGet. cbn.
  match goal with
  | |- context [bind (scan_ports ?ps ?want ?p) ?k ?s1] =>
      destruct (quiet_scan_ports ps want p s1) as (port & l & Hscan);
      rewrite (bind_returned _ k _ _ _ Hscan)
  end.
  destruct (String.eqb (svc_Type svc) ServiceTypeLoadBalancer).
  - unfold at_index, bind. destruct (svc_Ingress svc); reflexivity.
  - reflexivity.
Qed.

(** C7: for an existing target service that exposes the requested port,
    the URL is [protocol://ingress[0].IP:port] when the service is of
    type LoadBalancer (with a first ingress entry), and
    [protocol://name.namespace:port] otherwise; protocol and port are the
    spec's. *)
Theorem getTargetURL_derives_url (s : State W) svc w :
  let ref := cts_Service (te_Spec (st_r s)) in
  client_Get KService (mkNamespacedName (sr_Name ref) (sr_Namespace ref)) (st_world s)
    = ((svc, None), w) ->
  has_port (sr_Port ref) svc = true ->
  (svc_Type svc = ServiceTypeLoadBalancer ->
   forall ingress rest, svc_Ingress svc = ingress :: rest ->
     fst (getTargetURL s)
     = Returned (sr_Protocol ref +:+ "://" +:+ lbi_IP ingress +:+ ":"
                   +:+ Itoa (sr_Port ref), None))
  /\ (svc_Type svc <> ServiceTypeLoadBalancer ->
      fst (getTargetURL s)
      = Returned (sr_Protocol ref +:+ "://" +:+ sr_Name ref +:+ "." +:+ sr_Namespace ref
                    +:+ ":" +:+ Itoa (sr_Port ref), None)).
Proof.
  intros ref HGet _. pose proof (getTargetURL_found s svc w HGet) as Hrun.
  fold ref in Hrun. split.
  - intros HLB ingress rest Hing. rewrite Hrun, HLB, Hing, String.eqb_refl. reflexivity.
  - intros HnLB. rewrite Hrun.
    destruct (String.eqb_spec (svc_Type svc) ServiceTypeLoadBalancer); [contradiction|].
    reflexivity.
Qed.

(** C10: for an existing target service of type LoadBalancer, the first
    ingress entry is read without a bounds check: with an empty ingress
    list the call panics with an index out of range, and it returns a URL
    exactly when at least one ingress entry is assigned. *)
Theorem getTargetURL_load_balancer_ingress (s : State W) svc w :
  let ref := cts_Service (te_Spec (st_r s)) in
  client_Get KService (mkNamespacedName (sr_Name ref) (sr_Namespace ref)) (st_world s)
    = ((svc, None), w) ->
  svc_Type svc = ServiceTypeLoadBalancer ->
  (svc_Ingress svc = [] -> fst (getTargetURL s) = Panicked (IndexOutOfRange 0 0))
  /\ ((exists out, fst (getTargetURL s) = Returned out) <-> svc_Ingress svc <> []).
Proof.
  intros ref HGet HLB. pose proof (getTargetURL_found s svc w HGet) as Hrun.
  fold ref in Hrun. rewrite HLB, String.eqb_refl in Hrun. rewrite Hrun.
  destruct (svc_Ingress svc) as [|ingress rest].
  - split; [reflexivity|]. split; [intros [out Hout]; discriminate | congruence].
  - split; [discriminate|]. split; [discriminate | eauto].
Qed.

(** C1 (what the code does): for an existing target service that exposes
    no port of the requested number, no error is returned.  The test
    [&port == nil] never holds, and the URL is derived as if the port had
    been found. *)
Theorem getTargetURL_missing_port_not_reported (s : State W) svc w :
  let ref := cts_Service (te_Spec (st_r s)) in
  client_Get KService (mkNamespacedName (sr_Name ref) (sr_Namespace ref)) (st_world s)
    = ((svc, None), w) ->
  has_port (sr_Port ref) svc = false ->
  (forall out, fst (getTargetURL s) = Returned out -> snd out = None)
  /\ (svc_Type svc <> ServiceTypeLoadBalancer ->
      getTargetURL s
      = (Returned (cluster_url ref, None),
         mkState (st_r s) w
           (st_calls s ++ [CallGet KService (mkNamespacedName (sr_Name ref) (sr_Namespace ref))])
           (st_log s))).
Proof.
  intros ref HGet Hport. split.
  - intros out. pose proof (getTargetURL_found s svc w HGet) as Hrun.
    fold ref in Hrun. rewrite Hrun.
    destruct (String.eqb (svc_Type svc) ServiceTypeLoadBalancer);
      [destruct (svc_Ingress svc)|]; intros Hout; inversion Hout; reflexivity.
  - intros HnLB. unfold getTargetURL, Get, call, get_r, bind at 1 2. cbn.
    fold ref. rewrite HGet. cbn.
    rewrite (bind_returned _ _ _ _ _ (scan_ports_no_match _ _ _ _ Hport)).
    cbn. destruct (String.eqb_spec (svc_Type svc) ServiceTypeLoadBalancer); [contradiction|].
    reflexivity.
Qed.

End TargetURL.

(** ** Symbolic execution *)

Ltac unfold_calls :=
  unfold NewWithAPIToken, Tunnels, CreateTunnel, TunnelToken, ZoneIDByName, DNSRecords,
    CreateDNSRecord, Get, Create, Update, rand_Read, logger_Info, logger_Error in *.

Ltac unfold_monad :=
  unfold bind, call, get_r, put_r, modify_r, emit_log, deref, at_index, ret, do_panic in *.

Ltac run :=
  cbn [fst snd st_r st_world st_calls st_log nth_error
       tlp_AccountID tlp_Name tlp_IsDeleted tlp_UUID api_AccountID api_APIToken set_AccountID].

(** Case analysis on every answer the world still owes. *)
Ltac split_answers :=
  repeat match goal with
  | |- context [match ?x with _ => _ end] =>
      lazymatch x with
      | context [match _ with _ => _ end] => fail
      | _ => destruct x eqn:?
      end; run
  end.

Ltac calls_done :=
  rewrite <- ?app_assoc; cbn [app]; eexists; (split; [reflexivity | repeat constructor]).

(** One structural step of a proof of [emits]. *)
Ltac emits_step :=
  lazymatch goal with
  | |- emits _ (ret _) => apply emits_ret
  | |- emits _ (bind _ _) => apply emits_bind; [| intros ?]
  | |- emits _ (call _ _) => apply emits_call; try reflexivity
  | |- emits _ get_r => apply emits_get_r
  | |- emits _ (put_r _) => apply emits_put_r
  | |- emits _ (modify_r _) => apply emits_modify_r
  | |- emits _ (emit_log _) => apply emits_emit_log
  | |- emits _ (deref _) => apply emits_deref
  | |- emits _ (at_index _ _) => apply emits_at_index
  | |- emits _ (do_panic _) => apply emits_do_panic
  | |- emits _ (scan_ports _ _ _) => apply emits_quiet, quiet_scan_ports
  | |- emits _ (match ?x with _ => _ end) => destruct x
  end.

(** ** The calls of each step *)

Section StepCalls.

Context {W : Type} `{!Client W} `{!Cloudflare W} `{!CryptoRand W}.
Context `{!Models} `{!Libraries}.

Lemma emits_fetchDecodeSecret :
  emits (W:=W) (fun c => is_credential_read c = true) fetchDecodeSecret.
Proof.
  unfold fetchDecodeSecret, Get, logger_Info, logger_Error. repeat emits_step.
Qed.

Lemma emits_createTunnelRemote :
  emits (W:=W) (fun c => is_tunnel_call c = true) createTunnelRemote.
Proof.
  unfold createTunnelRemote, generateTunnelSecret. unfold_calls. cbv zeta.
  repeat emits_step.
Qed.

Lemma emits_createSecret ct :
  emits (W:=W) (fun c => is_sync_call c = true) (createSecret ct).
Proof. unfold createSecret. unfold_calls. repeat emits_step. Qed.

Lemma emits_createConfigMap ct url :
  emits (W:=W) (fun c => is_sync_call c = true) (createConfigMap ct url).
Proof. unfold createConfigMap. unfold_calls. repeat emits_step. Qed.

Lemma emits_createDeployment ct secret configMap :
  emits (W:=W) (fun c => is_sync_call c = true) (createDeployment ct secret configMap).
Proof. unfold createDeployment. unfold_calls. repeat emits_step. Qed.

Lemma emits_getTargetURL :
  emits (W:=W) (fun c => is_target_call c = true) getTargetURL.
Proof. unfold getTargetURL. unfold_calls. repeat emits_step. Qed.

Lemma emits_createDNSCNAME :
  emits (W:=W) (fun c => is_dns_call c = true) createDNSCNAME.
Proof. unfold createDNSCNAME. unfold_calls. repeat emits_step. Qed.

End StepCalls.

(** ** The remote tunnel *)

Section RemoteTunnel.

Context {W : Type} `{!Client W} `{!Cloudflare W} `{!CryptoRand W}.
Context `{!Models} `{!Libraries}.

(** Lines 193-201: the identifier filter is the recorded identifier,
    whether or not one is recorded (the empty string filters nothing). *)
Lemma uuid_filter (r : TunnelExpanded) acct :
  (if negb (String.eqb (te_TunnelID r) "")
   then mkTunnelListParams acct (te_Name r) (Some false) (te_TunnelID r)
   else mkTunnelListParams acct (te_Name r) (Some false) "")
  = mkTunnelListParams acct (te_Name r) (Some false) (te_TunnelID r).
Proof.
  destruct (String.eqb_spec (te_TunnelID r) "") as [->|]; reflexivity.
Qed.

(** Once the SDK handle exists, the step lists the tunnels once, with
    the parameters of [listing_of], before anything else. *)
Lemma createTunnelRemote_lists (s : State W) cf w1 :
  cf_NewWithAPIToken (te_AccountToken (st_r s)) (st_world s) = ((Some cf, None), w1) ->
  exists tail,
    st_calls (snd (createTunnelRemote s))
    = st_calls s
        ++ [CallNewWithAPIToken (te_AccountToken (st_r s));
            CallTunnels (set_AccountID (te_AccountTag (st_r s)) cf) (listing_of (st_r s))]
        ++ tail
    /\ Forall (fun c => is_Tunnels c = false) tail.
Proof.
  intros HNew.
  unfold createTunnelRemote, generateTunnelSecret. unfold_calls. unfold_monad. run.
  rewrite HNew. run. rewrite uuid_filter. fold (listing_of (st_r s)).
  split_answers; calls_done.
Qed.

(** A single listed tunnel is reused: its identifier becomes
    [r.TunnelID], whatever the fetch of its token gives. *)
Lemma createTunnelRemote_adopts_listed (s : State W) cf w1 tunnel w2 :
  let r := st_r s in
  cf_NewWithAPIToken (te_AccountToken r) (st_world s) = ((Some cf, None), w1) ->
  cf_Tunnels (set_AccountID (te_AccountTag r) cf) (listing_of r) w1
    = (([tunnel], None), w2) ->
  te_TunnelID (st_r (snd (createTunnelRemote s))) = tun_ID tunnel.
Proof.
  intros r HNew HTun.
  unfold createTunnelRemote. unfold_calls. unfold_monad. run.
  fold r. rewrite HNew. run. rewrite uuid_filter. fold (listing_of r).
  rewrite HTun. run. cbn [length Nat.leb Nat.eqb]. run.
  destruct (cf_TunnelToken _ _ _) as [[tok terr] w3]. run.
  destruct terr; run; [|destruct (DecodeString tok) as [bs [derr|]]]; reflexivity.
Qed.

(** A tunnel the provider created is adopted the same way. *)
Lemma createTunnelRemote_adopts_created (s : State W) cf w1 w2 data w3 tunnel w4 :
  let r := st_r s in
  let cf' := set_AccountID (te_AccountTag r) cf in
  cf_NewWithAPIToken (te_AccountToken r) (st_world s) = ((Some cf, None), w1) ->
  cf_Tunnels cf' (listing_of r) w1 = (([], None), w2) ->
  rand_source 32 w2 = ((data, None), w3) ->
  cf_CreateTunnel cf'
    (mkTunnelCreateParams (te_AccountTag r) (te_Name r)
       (Base64.EncodeToString (fill (make_bytes 32) data))) w3
    = ((tunnel, None), w4) ->
  te_TunnelID (st_r (snd (createTunnelRemote s))) = tun_ID tunnel.
Proof.
  intros r cf' HNew HTun HRand HCreate.
  unfold createTunnelRemote, generateTunnelSecret. unfold_calls. unfold_monad. run.
  fold r. rewrite HNew. run. rewrite uuid_filter. fold (listing_of r). fold cf'.
  rewrite HTun. run. cbn [length Nat.leb Nat.eqb]. run.
  change (length (make_bytes 32)) with 32%nat. rewrite HRand. run.
  rewrite HCreate. run.
  destruct (cf_TunnelToken _ _ _) as [[tok terr] w5]. run.
  destruct terr; run; [|destruct (DecodeString tok) as [bs [derr|]]]; reflexivity.
Qed.

(** C4: when the listing answers with two or more tunnels, the step
    fails with the error "multiple tunnels exist"; the only calls it made
    are the construction of the SDK handle and the listing itself, so no
    tunnel is created and nothing else is written. *)
Theorem createTunnelRemote_ambiguous (s : State W) cf w1 tunnels w2 :
  let r := st_r s in
  let cf' := set_AccountID (te_AccountTag r) cf in
  cf_NewWithAPIToken (te_AccountToken r) (st_world s) = ((Some cf, None), w1) ->
  cf_Tunnels cf' (listing_of r) w1 = ((tunnels, None), w2) ->
  (2 <= length tunnels)%nat ->
  fst (createTunnelRemote s) = Returned (Some (Errorf "multiple tunnels exist"))
  /\ st_calls (snd (createTunnelRemote s))
     = st_calls s ++ [CallNewWithAPIToken (te_AccountToken r); CallTunnels cf' (listing_of r)]
  /\ List.filter is_write (st_calls (snd (createTunnelRemote s)))
     = List.filter is_write (st_calls s)
  /\ st_world (snd (createTunnelRemote s)) = w2
  /\ te_TunnelID (st_r (snd (createTunnelRemote s))) = te_TunnelID r.
Proof.
  intros r cf' HNew HTun Hlen.
  unfold createTunnelRemote. unfold_calls. unfold_monad. run.
  fold r. rewrite HNew. run. rewrite uuid_filter. fold (listing_of r). fold cf'.
  rewrite HTun. run.
  destruct (Nat.leb_spec 2 (length tunnels)); [|lia]. run.
  rewrite <- !app_assoc. cbn [app].
  repeat split. rewrite List.filter_app. cbn. apply app_nil_r.
Qed.

(** C6: when the listing answers with no tunnel, a buffer of 32 bytes is
    filled from [crypto/rand]; if that succeeds, its base64 text is the
    secret of the one [CreateTunnel] call, whose name is the name of the
    spec; and if the provider returns a tunnel, its identifier becomes
    [r.TunnelID]. *)
Theorem createTunnelRemote_creates (s : State W) cf w1 w2 data rerr w3 :
  let r := st_r s in
  let cf' := set_AccountID (te_AccountTag r) cf in
  cf_NewWithAPIToken (te_AccountToken r) (st_world s) = ((Some cf, None), w1) ->
  cf_Tunnels cf' (listing_of r) w1 = (([], None), w2) ->
  rand_source 32 w2 = ((data, rerr), w3) ->
  let randomBytes := fill (make_bytes 32) data in
  let params :=
    mkTunnelCreateParams (te_AccountTag r) (te_Name r) (Base64.EncodeToString randomBytes) in
  length randomBytes = 32%nat
  /\ (rerr = None ->
      forall tunnel cerr w4,
        cf_CreateTunnel cf' params w3 = ((tunnel, cerr), w4) ->
        (exists tail,
            st_calls (snd (createTunnelRemote s))
            = st_calls s
                ++ [CallNewWithAPIToken (te_AccountToken r);
                    CallTunnels cf' (listing_of r);
                    CallRandRead 32;
                    CallCreateTunnel cf' params]
                ++ tail
            /\ Forall (fun c => is_CreateTunnel c = false) tail)
        /\ (cerr = None ->
            te_TunnelID (st_r (snd (createTunnelRemote s))) = tun_ID tunnel)).
Proof.
  intros r cf' HNew HTun HRand randomBytes params. split.
  { unfold randomBytes. rewrite fill_length. reflexivity. }
  intros -> tunnel cerr w4 HCreate.
  unfold createTunnelRemote, generateTunnelSecret. unfold_calls. unfold_monad. run.
  fold r. rewrite HNew. run. rewrite uuid_filter. fold (listing_of r). fold cf'.
  rewrite HTun. run. cbn [length Nat.leb Nat.eqb]. run.
  change (length (make_bytes 32)) with 32%nat. rewrite HRand. run.
  fold randomBytes. fold params. rewrite HCreate. run.
  destruct cerr as [e|]; run.
  - split; [|discriminate]. exists []. rewrite <- !app_assoc. cbn [app].
    split; [reflexivity | constructor].
  - destruct (cf_TunnelToken _ _ _) as [[tok terr] w5]. run.
    destruct terr; run; [|destruct (DecodeString tok) as [bs [derr|]]]; run.
    all: split; [|reflexivity].
    all: calls_done.
Qed.

End RemoteTunnel.

(** ** The DNS record *)

Section DNS.

Context {W : Type} `{!Client W} `{!Cloudflare W} `{!CryptoRand W}.
Context `{!Models} `{!Libraries}.

(** C5: once the zone is resolved and the CNAME records of the domain
    are listed, a non-empty answer ends the step without any
    [CreateDNSRecord] call, whatever the records hold; an empty answer is
    followed by exactly one [CreateDNSRecord], of the CNAME record of the
    domain whose content is the tunnel identifier followed by
    [CNAMESuffix] and whose TTL is left at zero. *)
Theorem createDNSCNAME_idempotent (s : State W) api zoneID w1 records w2 :
  let r := st_r s in
  let lookups :=
    [CallZoneIDByName api (cts_Zone (te_Spec r));
     CallDNSRecords api zoneID (mkDNSRecord "CNAME" (cts_Domain (te_Spec r)) "" 0)] in
  te_API r = Some api ->
  cf_ZoneIDByName api (cts_Zone (te_Spec r)) (st_world s) = ((zoneID, None), w1) ->
  cf_DNSRecords api zoneID (mkDNSRecord "CNAME" (cts_Domain (te_Spec r)) "" 0) w1
    = ((records, None), w2) ->
  (records <> [] ->
   createDNSCNAME s
   = (Returned None,
      mkState r w2 (st_calls s ++ lookups) (st_log s ++ [LogInfo 1 "DNS record exists"])))
  /\ (records = [] ->
      st_calls (snd (createDNSCNAME s))
      = st_calls s ++ lookups
          ++ [CallCreateDNSRecord api zoneID
                (mkDNSRecord "CNAME" (cts_Domain (te_Spec r))
                   (te_TunnelID r +:+ CNAMESuffix) 0)]).
Proof.
  intros r lookups HAPI HZone HList.
  unfold createDNSCNAME. unfold_calls. unfold_monad. run.
  fold r. rewrite HAPI. run. rewrite HZone. run. rewrite HList. run.
  split.
  - intros Hne. destruct records as [|rr records]; [contradiction|].
    cbn [length Nat.eqb negb]. run. unfold lookups.
    rewrite <- !app_assoc. reflexivity.
  - intros ->. cbn [length Nat.eqb negb]. run.
    destruct (cf_CreateDNSRecord _ _ _ _) as [[rr [e|]] w3]; run;
      unfold lookups; rewrite <- !app_assoc; reflexivity.
Qed.

End DNS.

(** ** Child resources *)

Section Children.

Context {W : Type} `{!Client W} `{!Cloudflare W} `{!CryptoRand W}.
Context `{!Models} `{!Libraries}.

(** C2 (what the code does): when the child is absent (the fetch fails
    with a not-found error) and its creation succeeds, each of the three
    synchronisations returns no resource, and as its error the not-found
    error of the fetch.  Line 319 (361, 401) is reached after the create
    as well. *)
Theorem create_absent_returns_fetch_error :
  (forall (s : State W) ct desired e fetched w1 created w2,
      let r := st_r s in
      SetControllerReference ct KSecret
        (GetSecret (mkSecretModel (te_Name r) (te_Namespace r) (te_TunnelSecret r)
                      (te_TunnelID r)))
        = (desired, None) ->
      let key := mkNamespacedName (om_Name (sec_Meta desired)) (te_Namespace r) in
      client_Get KSecret key (st_world s) = ((fetched, Some e), w1) ->
      IsNotFound e = true ->
      client_Create KSecret desired w1 = ((created, None), w2) ->
      fst (createSecret ct s) = Returned (None, Some e)
      /\ st_calls (snd (createSecret ct s))
         = st_calls s ++ [CallGet KSecret key; CallCreate KSecret desired])
  /\ (forall (s : State W) ct url built desired e fetched w1 created w2,
      let r := st_r s in
      GetConfigMap (mkConfigMapModel (te_Name r) (te_Namespace r) url (te_TunnelID r)
                      (cts_Domain (te_Spec r)))
        = (built, None) ->
      SetControllerReference ct KConfigMap built = (desired, None) ->
      let key := mkNamespacedName (om_Name (cm_Meta desired)) (te_Namespace r) in
      client_Get KConfigMap key (st_world s) = ((fetched, Some e), w1) ->
      IsNotFound e = true ->
      client_Create KConfigMap desired w1 = ((created, None), w2) ->
      fst (createConfigMap ct url s) = Returned (None, Some e)
      /\ st_calls (snd (createConfigMap ct url s))
         = st_calls s ++ [CallGet KConfigMap key; CallCreate KConfigMap desired])
  /\ (forall (s : State W) ct secret configMap desired e fetched w1 created w2,
      let r := st_r s in
      SetControllerReference ct KDeployment
        (GetDeployment (mkDeploymentModel (te_Name r) (te_Namespace r)
                          (cts_Replicas (te_Spec r)) (te_TunnelID r) secret configMap))
        = (desired, None) ->
      let key := mkNamespacedName (om_Name (dep_Meta desired)) (te_Namespace r) in
      client_Get KDeployment key (st_world s) = ((fetched, Some e), w1) ->
      IsNotFound e = true ->
      client_Create KDeployment desired w1 = ((created, None), w2) ->
      fst (createDeployment ct secret configMap s) = Returned (None, Some e)
      /\ st_calls (snd (createDeployment ct secret configMap s))
         = st_calls s ++ [CallGet KDeployment key; CallCreate KDeployment desired]).
Proof.
  split; [|split].
  - intros s ct desired e fetched w1 created w2 r HOwner key HGet HNF HCreate.
    unfold createSecret. unfold_calls. unfold_monad. run.
    fold r. rewrite HOwner. run. fold key. rewrite HGet. run. rewrite HNF. run.
    rewrite HCreate. run. rewrite <- !app_assoc. split; reflexivity.
  - intros s ct url built desired e fetched w1 created w2 r HBuild HOwner key HGet HNF HCreate.
    unfold createConfigMap. unfold_calls. unfold_monad. run.
    fold r. rewrite HBuild. rewrite HOwner. run. fold key. rewrite HGet. run.
    rewrite HNF. run. rewrite HCreate. run. rewrite <- !app_assoc. split; reflexivity.
  - intros s ct secret configMap desired e fetched w1 created w2 r HOwner key HGet HNF HCreate.
    unfold createDeployment. unfold_calls. unfold_monad. run.
    fold r. rewrite HOwner. run. fold key. rewrite HGet. run. rewrite HNF. run.
    rewrite HCreate. run. rewrite <- !app_assoc. split; reflexivity.
Qed.

(** The other arm, for comparison: a child that is present is updated
    and returned without error. *)
Lemma createSecret_present (s : State W) ct desired fetched w1 updated w2 :
  let r := st_r s in
  SetControllerReference ct KSecret
    (GetSecret (mkSecretModel (te_Name r) (te_Namespace r) (te_TunnelSecret r)
                  (te_TunnelID r)))
    = (desired, None) ->
  let key := mkNamespacedName (om_Name (sec_Meta desired)) (te_Namespace r) in
  client_Get KSecret key (st_world s) = ((fetched, None), w1) ->
  client_Update KSecret desired w1 = ((updated, None), w2) ->
  fst (createSecret ct s) = Returned (Some updated, None)
  /\ st_calls (snd (createSecret ct s))
     = st_calls s ++ [CallGet KSecret key; CallUpdate KSecret desired].
Proof.
  intros r HOwner key HGet HUpdate.
  unfold createSecret. unfold_calls. unfold_monad. run.
  fold r. rewrite HOwner. run. fold key. rewrite HGet. run.
  rewrite HUpdate. run. rewrite <- !app_assoc. split; reflexivity.
Qed.

End Children.

(** ** The pass *)

(** A call of one class is a call of a union of classes. *)
Ltac by_class :=
  let c := fresh "c" in
  let Hc := fresh "Hc" in
  cbv beta; intros c Hc; unfold is_pass_call, is_later_call;
  rewrite Hc, ?orb_true_r; reflexivity.

Ltac emits_fn :=
  first
    [ emits_step
    | eapply emits_weaken; [| apply emits_fetchDecodeSecret]; by_class
    | eapply emits_weaken; [| apply emits_createTunnelRemote]; by_class
    | eapply emits_weaken; [| apply emits_createSecret]; by_class
    | eapply emits_weaken; [| apply emits_getTargetURL]; by_class
    | eapply emits_weaken; [| apply emits_createConfigMap]; by_class
    | eapply emits_weaken; [| apply emits_createDeployment]; by_class
    | eapply emits_weaken; [| apply emits_createDNSCNAME]; by_class ].

Section Pass.

Context {W : Type} `{!Client W} `{!Cloudflare W} `{!CryptoRand W}.
Context `{!Models} `{!Libraries}.

Lemma call_run {A} c (f : W -> A * W) (s : State W) a w :
  f (st_world s) = (a, w) ->
  call c f s = (Returned a, mkState (st_r s) w (st_calls s ++ [c]) (st_log s)).
Proof. intros Hf. unfold call. now rewrite Hf. Qed.

Lemma emits_run {A} P (m : M W A) s :
  emits P m -> exists new, st_calls (snd (m s)) = st_calls s ++ new /\ Forall P new.
Proof. intros Hm. apply Hm. Qed.

(** Every call of a pass belongs to one of its steps. *)
Lemma emits_Reconcile req :
  emits (W:=W) (fun c => is_pass_call c = true) (Reconcile req).
Proof.
  unfold Reconcile. unfold_calls. repeat emits_fn.
Qed.

(** The pass once the custom resource is fetched: credential lookup in
    the state [loaded], then, if that went well, the remote tunnel and
    steps that make later calls only. *)
Lemma Reconcile_loaded req (s : State W) ct w1 :
  client_Get KCloudflareTunnel req (st_world s) = ((ct, None), w1) ->
  exists k,
    Reconcile req s = bind fetchDecodeSecret k (loaded s req ct w1)
    /\ (forall e, k (Some e) = ret (zero_Result, Some e))
    /\ (forall s2, exists later,
          st_calls (snd (k None s2)) = st_calls (snd (createTunnelRemote s2)) ++ later
          /\ Forall (fun c => is_later_call c = true) later).
Proof.
  intros HGet. eexists. split; [|split].
  - unfold Reconcile.
    rewrite (bind_returned (logger_Info 0 "Reconciling...") _ s tt _ eq_refl).
    unfold Get.
    erewrite (bind_returned (call _ _)); [| apply call_run; cbn [st_world]; exact HGet].
    cbv beta iota.
    rewrite (bind_returned (logger_Info 1 "Resource fetched") _ _ tt _ eq_refl).
    rewrite (bind_returned (put_r _) _ _ tt _ eq_refl).
    unfold loaded. cbn [st_r st_world st_calls st_log logger_Info emit_log put_r].
    reflexivity.
  - intros e. reflexivity.
  - intros s2. cbv beta iota.
    destruct (createTunnelRemote s2) as [[err|p] s3] eqn:HTunnel.
    + rewrite (bind_returned _ _ _ _ _ HTunnel). cbn [snd].
      apply emits_run. unfold logger_Error. repeat emits_fn.
    + rewrite (bind_panicked _ _ _ _ _ HTunnel). cbn [snd].
      exists []. split; [now rewrite app_nil_r | constructor].
Qed.

(** Credential lookup reads at most the account secret. *)
Lemma fetchDecodeSecret_calls (s : State W) :
  let r := st_r s in
  st_calls (snd (fetchDecodeSecret s)) = st_calls s
  \/ st_calls (snd (fetchDecodeSecret s))
     = st_calls s
         ++ [CallGet KSecret
               (mkNamespacedName (cts_TokenSecretName (te_Spec r)) (te_Namespace r))].
Proof.
  intros r. unfold fetchDecodeSecret. unfold_calls. unfold_monad. run. fold r.
  split_answers; auto.
Qed.

(** Credential lookup writes the account fields of the reconciler only. *)
Lemma fetchDecodeSecret_keeps (s : State W) :
  let r' := st_r (snd (fetchDecodeSecret s)) in
  te_Name r' = te_Name (st_r s) /\ te_TunnelID r' = te_TunnelID (st_r s).
Proof.
  unfold fetchDecodeSecret. unfold_calls. unfold_monad. run.
  split_answers; auto.
Qed.

End Pass.

Section PassClaims.

Context {W : Type} `{!Client W} `{!Cloudflare W} `{!CryptoRand W}.
Context `{!Models} `{!Libraries}.

Lemma filter_none (f : Call -> bool) (l : list Call) :
  Forall (fun c => f c = false) l -> List.filter f l = [].
Proof.
  induction 1 as [|c l Hc _ IH]; cbn; [reflexivity|]. now rewrite Hc.
Qed.

Lemma later_not_Tunnels (l : list Call) :
  Forall (fun c => is_later_call c = true) l -> Forall (fun c => is_Tunnels c = false) l.
Proof.
  apply List.Forall_impl. intros c. destruct c; cbn; auto; discriminate.
Qed.

(** C9: when credential lookup fails, the pass returns its error at once,
    in the very state credential lookup left: the calls of the pass are
    the fetch of the custom resource and at most the fetch of the account
    secret, hence no call of the remote-tunnel step, of target
    resolution, of the DNS step, and no write. *)
Theorem Reconcile_credentials_fail_fast req (s : State W) ct w1 e s2 :
  client_Get KCloudflareTunnel req (st_world s) = ((ct, None), w1) ->
  fetchDecodeSecret (loaded s req ct w1) = (Returned (Some e), s2) ->
  Reconcile req s = (Returned (zero_Result, Some e), s2)
  /\ (exists new,
        st_calls s2 = st_calls s ++ new
        /\ (new = [CallGet KCloudflareTunnel req]
            \/ new = [CallGet KCloudflareTunnel req;
                      CallGet KSecret
                        (mkNamespacedName (cts_TokenSecretName (ct_Spec ct))
                           (om_Namespace (ct_Meta ct)))])
        /\ Forall (fun c => is_tunnel_call c = false /\ is_target_call c = false
                            /\ is_dns_call c = false /\ is_write c = false) new).
Proof.
  intros HGet HCred.
  destruct (Reconcile_loaded req s ct w1 HGet) as (k & HR & Hk & _).
  split.
  - rewrite HR, (bind_returned _ _ _ _ _ HCred), Hk. reflexivity.
  - pose proof (fetchDecodeSecret_calls (loaded s req ct w1)) as Hcalls.
    rewrite HCred in Hcalls. cbn in Hcalls.
    destruct Hcalls as [-> | ->]; rewrite <- ?app_assoc; cbn [app];
      eexists; (split; [reflexivity|]); split; auto; repeat constructor.
Qed.

(** C8: in a pass that reaches the listing, the one [Tunnels] call
    carries the name of the custom resource, the not-deleted flag and, as
    identifier filter, the tunnel identifier recorded in the status: that
    identifier when one is recorded, and no identifier (the empty string)
    when none is. *)
Theorem Reconcile_listing_filter req (s : State W) ct w1 s2 cf w3 :
  client_Get KCloudflareTunnel req (st_world s) = ((ct, None), w1) ->
  fetchDecodeSecret (loaded s req ct w1) = (Returned None, s2) ->
  cf_NewWithAPIToken (te_AccountToken (st_r s2)) (st_world s2) = ((Some cf, None), w3) ->
  let id := status_TunnelID (ct_Status ct) in
  let listing (uuid : string) :=
    CallTunnels (set_AccountID (te_AccountTag (st_r s2)) cf)
      (mkTunnelListParams (te_AccountTag (st_r s2)) (om_Name (ct_Meta ct)) (Some false) uuid) in
  (id <> "" ->
   List.filter is_Tunnels (st_calls (snd (Reconcile req s)))
   = List.filter is_Tunnels (st_calls s) ++ [listing id])
  /\ (id = "" ->
      List.filter is_Tunnels (st_calls (snd (Reconcile req s)))
      = List.filter is_Tunnels (st_calls s) ++ [listing ""]).
Proof.
  intros HGet HCred HNew id listing.
  assert (Hall : List.filter is_Tunnels (st_calls (snd (Reconcile req s)))
                 = List.filter is_Tunnels (st_calls s) ++ [listing id]).
  { destruct (Reconcile_loaded req s ct w1 HGet) as (k & HR & _ & Hlater).
    rewrite HR, (bind_returned _ _ _ _ _ HCred).
    destruct (Hlater s2) as (later & -> & Hl).
    destruct (createTunnelRemote_lists s2 cf w3 HNew) as (tail & -> & Ht).
    pose proof (fetchDecodeSecret_keeps (loaded s req ct w1)) as [HName HID].
    pose proof (fetchDecodeSecret_calls (loaded s req ct w1)) as Hcalls.
    rewrite HCred in HName, HID, Hcalls. cbn in HName, HID, Hcalls.
    unfold listing_of. rewrite HName, HID. fold id.
    rewrite !List.filter_app, (filter_none _ _ Ht),
      (filter_none _ _ (later_not_Tunnels _ Hl)), !app_nil_r.
    destruct Hcalls as [-> | ->]; rewrite !List.filter_app; cbn;
      rewrite ?app_nil_r; reflexivity. }
  split; intros Hid; [exact Hall | rewrite Hall, Hid; reflexivity].
Qed.

(** C3 (as amended): the tunnel identifier a pass resolves or creates is
    assigned to [r.TunnelID], in memory, and is not written back: every
    cluster write of a pass is a [Create] or an [Update] of a Secret, a
    ConfigMap or a Deployment, none is of the CloudflareTunnel object or
    its status. *)
Theorem Reconcile_identifier_not_written_back :
  (forall req (s : State W),
      exists new,
        st_calls (snd (Reconcile req s)) = st_calls s ++ new
        /\ Forall (fun c => written_kind c <> Some KCloudflareTunnel
                            /\ forall k, written_kind c = Some k -> is_child k = true) new)
  /\ (forall (s : State W) cf w1 tunnel w2,
        let r := st_r s in
        cf_NewWithAPIToken (te_AccountToken r) (st_world s) = ((Some cf, None), w1) ->
        cf_Tunnels (set_AccountID (te_AccountTag r) cf) (listing_of r) w1
          = (([tunnel], None), w2) ->
        te_TunnelID (st_r (snd (createTunnelRemote s))) = tun_ID tunnel)
  /\ (forall (s : State W) cf w1 w2 data w3 tunnel w4,
        let r := st_r s in
        let cf' := set_AccountID (te_AccountTag r) cf in
        cf_NewWithAPIToken (te_AccountToken r) (st_world s) = ((Some cf, None), w1) ->
        cf_Tunnels cf' (listing_of r) w1 = (([], None), w2) ->
        rand_source 32 w2 = ((data, None), w3) ->
        cf_CreateTunnel cf'
          (mkTunnelCreateParams (te_AccountTag r) (te_Name r)
             (Base64.EncodeToString (fill (make_bytes 32) data))) w3
          = ((tunnel, None), w4) ->
        te_TunnelID (st_r (snd (createTunnelRemote s))) = tun_ID tunnel).
Proof.
  split; [|split].
  - intros req s. apply emits_run. eapply emits_weaken; [| apply emits_Reconcile].
    intros c Hc.
    destruct c as [k ?|k ?|k ?| | | | | | | |]; cbn in *;
      try (split; [discriminate | intros ? [=]]).
    all: destruct k; cbn in *; try discriminate;
      (split; [discriminate | intros ? [= <-]; reflexivity]).
  - intros s cf w1 tunnel w2. apply createTunnelRemote_adopts_listed.
  - intros s cf w1 w2 data w3 tunnel w4. apply createTunnelRemote_adopts_created.
Qed.

End PassClaims.

(* ================================================================== *)
(** * Further properties of the steps *)
(* ================================================================== *)

(** ** Credential lookup *)

Section Credentials.
Context {W : Type} `{!Client W} `{!Cloudflare W} `{!CryptoRand W}.
Context `{!Models} `{!Libraries}.

Lemma length_zero_iff (x : string) : (String.length x =? 0)%nat = true <-> x = "".
Proof.
  destruct x; cbn; split; intros Hx; try reflexivity; discriminate.
Qed.

(** X1: fetchDecodeSecret returns no error exactly when the secret name of the
    spec is non-empty, the Get of that secret reports no error, and the secret
    holds both the key token and the key accountID. *)
Theorem fetchDecodeSecret_succeeds_iff (s : State W) secret gerr w1 :
  let r := st_r s in
  let name := cts_TokenSecretName (te_Spec r) in
  client_Get KSecret (mkNamespacedName name (te_Namespace r)) (st_world s)
    = ((secret, gerr), w1) ->
  fst (fetchDecodeSecret s) = Returned None
  <-> name <> "" /\ gerr = None
      /\ is_Some (sec_Data secret !! "token") /\ is_Some (sec_Data secret !! "accountID").
Proof.
  intros r name HGet.
  unfold fetchDecodeSecret. unfold_calls. unfold_monad. run. fold r. fold name.
  destruct (String.length name =? 0)%nat eqn:Hname.
  - apply length_zero_iff in Hname. run. split; [discriminate | intros [Hne _]; contradiction].
  - assert (Hne : name <> "").
    { intros Heq. apply length_zero_iff in Heq. congruence. }
    rewrite HGet. run.
    destruct gerr as [e|]; run.
    + destruct (IsNotFound e); run; (split; [discriminate | intros (_ & Habs & _); discriminate]).
    + destruct (sec_Data secret !! "token") as [token|]; run.
      * destruct (sec_Data secret !! "accountID") as [account|]; run.
        -- split; [intros _; repeat split; eauto | reflexivity].
        -- split; [discriminate | intros (_ & _ & _ & [x Hx]); discriminate].
      * split; [discriminate | intros (_ & _ & [x Hx] & _); discriminate].
Qed.

(** X2: When credential lookup succeeds it made exactly one call (the Get of
    the named secret in the namespace of the custom resource) and assigned
    r.AccountToken and r.AccountTag the values under token and accountID;
    every other field of the reconciler is as before. *)
Theorem fetchDecodeSecret_sets_credentials (s : State W) secret w1 token account :
  let r := st_r s in
  let name := cts_TokenSecretName (te_Spec r) in
  name <> "" ->
  client_Get KSecret (mkNamespacedName name (te_Namespace r)) (st_world s)
    = ((secret, None), w1) ->
  sec_Data secret !! "token" = Some token ->
  sec_Data secret !! "accountID" = Some account ->
  fetchDecodeSecret s
  = (Returned None,
     mkState
       (mkTunnelExpanded (te_Spec r) (te_API r) (string_of_list_byte token)
          (string_of_list_byte account) (te_Name r) (te_Namespace r) (te_TunnelID r)
          (te_TunnelSecret r))
       w1
       (st_calls s ++ [CallGet KSecret (mkNamespacedName name (te_Namespace r))])
       (st_log s ++ [LogInfo 1 "Secret fetched"; LogInfo 1 "Secret decoded"])).
Proof.
  intros r name Hne HGet Htoken Haccount.
  unfold fetchDecodeSecret. unfold_calls. unfold_monad. run. fold r. fold name.
  destruct (String.length name =? 0)%nat eqn:Hname.
  { apply length_zero_iff in Hname. contradiction. }
  rewrite HGet. run. rewrite Htoken, Haccount. run.
  rewrite <- !app_assoc. reflexivity.
Qed.

(** X3: When credential lookup fails, no field of the reconciler is assigned,
    and the error is one of three: the fixed error for an empty secret name
    (then no call was made and the world is untouched), the error of the Get
    unchanged, or the error invalid key when token or accountID is missing. *)
Theorem fetchDecodeSecret_errors (s : State W) e :
  let r := st_r s in
  let name := cts_TokenSecretName (te_Spec r) in
  let answer := fst (client_Get KSecret (mkNamespacedName name (te_Namespace r)) (st_world s)) in
  fst (fetchDecodeSecret s) = Returned (Some e) ->
  st_r (snd (fetchDecodeSecret s)) = r
  /\ ((name = "" /\ e = Errorf "CredentialSecretName key does not exist"
       /\ st_calls (snd (fetchDecodeSecret s)) = st_calls s
       /\ st_world (snd (fetchDecodeSecret s)) = st_world s)
      \/ (name <> "" /\ snd answer = Some e)
      \/ (name <> "" /\ snd answer = None /\ e = Errorf "invalid key"
          /\ (sec_Data (fst answer) !! "token" = None
              \/ sec_Data (fst answer) !! "accountID" = None))).
Proof.
  intros r name answer. subst answer.
  unfold fetchDecodeSecret. unfold_calls. unfold_monad. run. fold r. fold name.
  destruct (String.length name =? 0)%nat eqn:Hname.
  - apply length_zero_iff in Hname. run. intros [= <-]. split; [reflexivity|]. left. auto.
  - assert (Hne : name <> "").
    { intros Heq. apply length_zero_iff in Heq. congruence. }
    destruct (client_Get KSecret _ _) as [[secret gerr] w1]. run.
    destruct gerr as [e0|]; run.
    + destruct (IsNotFound e0); run; intros [= <-]; (split; [reflexivity|]); right; left; auto.
    + destruct (sec_Data secret !! "token") as [token|] eqn:Htoken; run.
      * destruct (sec_Data secret !! "accountID") as [account|] eqn:Haccount; run.
        -- discriminate.
        -- intros [= <-]. split; [reflexivity|]. right; right. auto.
      * intros [= <-]. split; [reflexivity|]. right; right. auto.
Qed.

End Credentials.

(** ** The paths of the remote tunnel step *)

Section TunnelPaths.
Context {W : Type} `{!Client W} `{!Cloudflare W} `{!CryptoRand W}.
Context `{!Models} `{!Libraries}.

(** X4: When cloudflare.NewWithAPIToken reports an error, createTunnelRemote
    returns that error after this single call; r.API has already been assigned
    whatever handle the constructor returned, and no tunnel is listed or
    created. *)
Theorem createTunnelRemote_constructor_error (s : State W) cf e w1 :
  let r := st_r s in
  cf_NewWithAPIToken (te_AccountToken r) (st_world s) = ((cf, Some e), w1) ->
  createTunnelRemote s
  = (Returned (Some e),
     mkState (set_API cf r) w1
       (st_calls s ++ [CallNewWithAPIToken (te_AccountToken r)])
       (st_log s ++ [LogError (Some e) "could not create cloudflare instance"])).
Proof.
  intros r HNew.
  unfold createTunnelRemote. unfold_calls. unfold_monad. run.
  fold r. rewrite HNew. run. reflexivity.
Qed.

(** X5: When the constructor reports no error, createTunnelRemote panics
    exactly when the handle it returned is nil: the assignment cf.AccountID =
    r.AccountTag dereferences it, right after the constructor call. With a
    non-nil handle the step never panics (the index tunnels[0] is guarded by
    the length test). *)
Theorem createTunnelRemote_nil_handle (s : State W) cf w1 :
  let r := st_r s in
  cf_NewWithAPIToken (te_AccountToken r) (st_world s) = ((cf, None), w1) ->
  ((exists p, fst (createTunnelRemote s) = Panicked p) <-> cf = None)
  /\ (cf = None ->
      createTunnelRemote s
      = (Panicked NilPointerDereference,
         mkState (set_API None r) w1
           (st_calls s ++ [CallNewWithAPIToken (te_AccountToken r)])
           (st_log s ++ [LogInfo 1 "Cloudflare instance successfully created"]))).
Proof.
  intros r HNew.
  unfold createTunnelRemote, generateTunnelSecret. unfold_calls. unfold_monad. run.
  fold r. rewrite HNew. run.
  destruct cf as [cf|]; run.
  - split; [|discriminate]. split; [|discriminate].
    intros [p Hp]. exfalso. revert Hp. rewrite uuid_filter.
    destruct (cf_Tunnels _ _ _) as [[ts terr] w2]. run.
    destruct terr; run; [discriminate|].
    destruct ts as [|t [|t' ts]]; cbn [length Nat.leb Nat.eqb]; run.
    + split_answers; discriminate.
    + split_answers; discriminate.
    + discriminate.
  - split; [|reflexivity]. split; [reflexivity | eauto].
Qed.

(** X6: When the tunnel listing reports an error, createTunnelRemote returns
    it; the calls are the constructor and the listing, r.TunnelID and
    r.TunnelSecret are unchanged, and r.API is the handle with AccountID set
    to r.AccountTag. *)
Theorem createTunnelRemote_listing_error (s : State W) cf w1 ts e w2 :
  let r := st_r s in
  let cf' := set_AccountID (te_AccountTag r) cf in
  cf_NewWithAPIToken (te_AccountToken r) (st_world s) = ((Some cf, None), w1) ->
  cf_Tunnels cf' (listing_of r) w1 = ((ts, Some e), w2) ->
  createTunnelRemote s
  = (Returned (Some e),
     mkState (set_API (Some cf') r) w2
       (st_calls s ++ [CallNewWithAPIToken (te_AccountToken r); CallTunnels cf' (listing_of r)])
       (st_log s ++ [LogInfo 1 "Cloudflare instance successfully created";
                     LogError (Some e) "could not fetch tunnel list"])).
Proof.
  intros r cf' HNew HTun.
  unfold createTunnelRemote. unfold_calls. unfold_monad. run.
  fold r. rewrite HNew. run. rewrite uuid_filter. fold (listing_of r). fold cf'.
  rewrite HTun. run. rewrite <- !app_assoc. reflexivity.
Qed.

(** X7: When the listing returns exactly one tunnel it is reused: the calls
    are constructor, listing and TunnelToken for that tunnel's ID (no random
    read, no CreateTunnel); r.TunnelID is that ID even if the token fetch or
    its base64 decoding then fails, and r.TunnelSecret is assigned the decoded
    token only when both succeed. *)
Theorem createTunnelRemote_reuses_single (s : State W) cf w1 tunnel w2 token terr w3 :
  let r := st_r s in
  let cf' := set_AccountID (te_AccountTag r) cf in
  let ask := mkTunnelTokenParams (te_AccountTag r) (tun_ID tunnel) in
  let s' := snd (createTunnelRemote s) in
  cf_NewWithAPIToken (te_AccountToken r) (st_world s) = ((Some cf, None), w1) ->
  cf_Tunnels cf' (listing_of r) w1 = (([tunnel], None), w2) ->
  cf_TunnelToken cf' ask w2 = ((token, terr), w3) ->
  st_calls s'
  = st_calls s ++ [CallNewWithAPIToken (te_AccountToken r); CallTunnels cf' (listing_of r);
                   CallTunnelToken cf' ask]
  /\ st_world s' = w3
  /\ te_TunnelID (st_r s') = tun_ID tunnel
  /\ (forall e, terr = Some e ->
        fst (createTunnelRemote s) = Returned (Some e)
        /\ te_TunnelSecret (st_r s') = te_TunnelSecret r)
  /\ (terr = None ->
      forall e, snd (DecodeString token) = Some e ->
        fst (createTunnelRemote s) = Returned (Some e)
        /\ te_TunnelSecret (st_r s') = te_TunnelSecret r)
  /\ (terr = None -> snd (DecodeString token) = None ->
      fst (createTunnelRemote s) = Returned None
      /\ te_TunnelSecret (st_r s') = string_of_list_byte (fst (DecodeString token))).
Proof.
  intros r cf' ask s' HNew HTun HTok. subst s'.
  unfold createTunnelRemote. unfold_calls. unfold_monad. run.
  fold r. rewrite HNew. run. rewrite uuid_filter. fold (listing_of r). fold cf'.
  rewrite HTun. run. cbn [length Nat.leb Nat.eqb]. run. fold ask. rewrite HTok. run.
  destruct terr as [e|]; run.
  - rewrite <- !app_assoc.
    split; [reflexivity|]. split; [reflexivity|]. split; [reflexivity|].
    split; [intros e0 [= <-]; split; reflexivity|].
    split; intros Habs; discriminate.
  - destruct (DecodeString token) as [bs [e|]]; run; rewrite <- !app_assoc;
      (split; [reflexivity|]); (split; [reflexivity|]); (split; [reflexivity|]);
      (split; [intros e0 Habs; discriminate|]); cbn [snd fst].
    + split; [intros _ e0 [= <-]; split; reflexivity | intros _ Habs; discriminate].
    + split; [intros _ e0 Habs; discriminate | intros _ _; split; reflexivity].
Qed.

(** X8: When the listing is empty and rand.Read reports an error,
    createTunnelRemote returns that error without calling CreateTunnel;
    r.TunnelID is unchanged. *)
Theorem createTunnelRemote_rand_failure (s : State W) cf w1 w2 data e w3 :
  let r := st_r s in
  let cf' := set_AccountID (te_AccountTag r) cf in
  cf_NewWithAPIToken (te_AccountToken r) (st_world s) = ((Some cf, None), w1) ->
  cf_Tunnels cf' (listing_of r) w1 = (([], None), w2) ->
  rand_source 32 w2 = ((data, Some e), w3) ->
  fst (createTunnelRemote s) = Returned (Some e)
  /\ st_calls (snd (createTunnelRemote s))
     = st_calls s ++ [CallNewWithAPIToken (te_AccountToken r); CallTunnels cf' (listing_of r);
                      CallRandRead 32]
  /\ st_world (snd (createTunnelRemote s)) = w3
  /\ te_TunnelID (st_r (snd (createTunnelRemote s))) = te_TunnelID r.
Proof.
  intros r cf' HNew HTun HRand.
  unfold createTunnelRemote, generateTunnelSecret. unfold_calls. unfold_monad. run.
  fold r. rewrite HNew. run. rewrite uuid_filter. fold (listing_of r). fold cf'.
  rewrite HTun. run. cbn [length Nat.leb Nat.eqb]. run.
  change (length (make_bytes 32)) with 32%nat. rewrite HRand. run.
  rewrite <- !app_assoc. repeat split.
Qed.

(** X9: When CreateTunnel reports an error, createTunnelRemote returns it
    right away: no TunnelToken call follows and r.TunnelID is not assigned
    from the tunnel value the failed call returned. *)
Theorem createTunnelRemote_create_failure (s : State W) cf w1 w2 data w3 tunnel e w4 :
  let r := st_r s in
  let cf' := set_AccountID (te_AccountTag r) cf in
  let params :=
    mkTunnelCreateParams (te_AccountTag r) (te_Name r)
      (Base64.EncodeToString (fill (make_bytes 32) data)) in
  cf_NewWithAPIToken (te_AccountToken r) (st_world s) = ((Some cf, None), w1) ->
  cf_Tunnels cf' (listing_of r) w1 = (([], None), w2) ->
  rand_source 32 w2 = ((data, None), w3) ->
  cf_CreateTunnel cf' params w3 = ((tunnel, Some e), w4) ->
  fst (createTunnelRemote s) = Returned (Some e)
  /\ st_calls (snd (createTunnelRemote s))
     = st_calls s ++ [CallNewWithAPIToken (te_AccountToken r); CallTunnels cf' (listing_of r);
                      CallRandRead 32; CallCreateTunnel cf' params]
  /\ st_world (snd (createTunnelRemote s)) = w4
  /\ te_TunnelID (st_r (snd (createTunnelRemote s))) = te_TunnelID r.
Proof.
  intros r cf' params HNew HTun HRand HCreate.
  unfold createTunnelRemote, generateTunnelSecret. unfold_calls. unfold_monad. run.
  fold r. rewrite HNew. run. rewrite uuid_filter. fold (listing_of r). fold cf'.
  rewrite HTun. run. cbn [length Nat.leb Nat.eqb]. run.
  change (length (make_bytes 32)) with 32%nat. rewrite HRand. run.
  fold params. rewrite HCreate. run.
  rewrite <- !app_assoc. repeat split.
Qed.

(** X10: Whenever createTunnelRemote returns no error, r.API is a non-nil
    handle whose AccountID is r.AccountTag, the last call was TunnelToken for
    the adopted r.TunnelID, that call reported no error, and r.TunnelSecret is
    the base64 decoding of the token it returned. *)
Theorem createTunnelRemote_success (s : State W) :
  let r := st_r s in
  let r' := st_r (snd (createTunnelRemote s)) in
  fst (createTunnelRemote s) = Returned None ->
  exists cf before token secret w w',
    te_API r' = Some cf /\ api_AccountID cf = te_AccountTag r
    /\ st_calls (snd (createTunnelRemote s))
       = before
           ++ [CallTunnelToken cf (mkTunnelTokenParams (te_AccountTag r) (te_TunnelID r'))]
    /\ cf_TunnelToken cf (mkTunnelTokenParams (te_AccountTag r) (te_TunnelID r')) w
       = ((token, None), w')
    /\ st_world (snd (createTunnelRemote s)) = w'
    /\ DecodeString token = (secret, None)
    /\ te_TunnelSecret r' = string_of_list_byte secret.
Proof.
  intros r r'. subst r'.
  unfold createTunnelRemote, generateTunnelSecret. unfold_calls. unfold_monad. run. fold r.
  rewrite uuid_filter.
  split_answers; try discriminate.
  all: intros _; do 6 eexists; cbn [te_API te_TunnelID te_TunnelSecret set_API set_TunnelID
                                     set_TunnelSecret];
    (split; [reflexivity|]); (split; [reflexivity|]); (split; [reflexivity|]);
    (split; [eassumption|]); (split; [reflexivity|]); (split; [eassumption | reflexivity]).
Qed.

(** X11: createTunnelRemote assigns only r.API, r.TunnelID and r.TunnelSecret:
    the spec, the name, the namespace, the account token and the account tag
    of the reconciler are the same after the step, on every path. *)
Theorem createTunnelRemote_frame (s : State W) :
  let r := st_r s in
  let r' := st_r (snd (createTunnelRemote s)) in
  te_Spec r' = te_Spec r /\ te_Name r' = te_Name r /\ te_Namespace r' = te_Namespace r
  /\ te_AccountToken r' = te_AccountToken r /\ te_AccountTag r' = te_AccountTag r.
Proof.
  intros r r'. subst r'.
  unfold createTunnelRemote, generateTunnelSecret. unfold_calls. unfold_monad. run. fold r.
  split_answers; repeat split.
Qed.

End TunnelPaths.

(** ** DNS record, target URL, tunnel secret *)

Section OtherSteps.
Context {W : Type} `{!Client W} `{!Cloudflare W} `{!CryptoRand W}.
Context `{!Models} `{!Libraries}.

(** X12: createDNSCNAME returns the error of ZoneIDByName without listing or
    creating a record, returns the error of DNSRecords without creating a
    record, and after an empty listing returns exactly what CreateDNSRecord
    reported (its error or nil); in each of
    these cases no field of the reconciler is assigned. *)
Theorem createDNSCNAME_propagates_errors (s : State W) api zoneID zerr w1 :
  let r := st_r s in
  let zone := CallZoneIDByName api (cts_Zone (te_Spec r)) in
  let ask := mkDNSRecord "CNAME" (cts_Domain (te_Spec r)) "" 0 in
  let rr := mkDNSRecord "CNAME" (cts_Domain (te_Spec r)) (te_TunnelID r +:+ CNAMESuffix) 0 in
  te_API r = Some api ->
  cf_ZoneIDByName api (cts_Zone (te_Spec r)) (st_world s) = ((zoneID, zerr), w1) ->
  (forall e, zerr = Some e ->
     createDNSCNAME s
     = (Returned (Some e),
        mkState r w1 (st_calls s ++ [zone])
          (st_log s ++ [LogError (Some e) "could not fetch zone id"])))
  /\ (zerr = None ->
      forall records lerr w2,
        cf_DNSRecords api zoneID ask w1 = ((records, lerr), w2) ->
        (forall e, lerr = Some e ->
           createDNSCNAME s
           = (Returned (Some e),
              mkState r w2 (st_calls s ++ [zone; CallDNSRecords api zoneID ask])
                (st_log s ++ [LogError (Some e) "could not fetch dns list"])))
        /\ (lerr = None -> records = [] ->
            forall created cerr w3,
              cf_CreateDNSRecord api zoneID rr w2 = ((created, cerr), w3) ->
              fst (createDNSCNAME s) = Returned cerr
              /\ st_world (snd (createDNSCNAME s)) = w3
              /\ st_r (snd (createDNSCNAME s)) = r)).
Proof.
  intros r zone ask rr HAPI HZone.
  unfold createDNSCNAME. unfold_calls. unfold_monad. run.
  fold r. rewrite HAPI. run. rewrite HZone. run. split.
  - intros e ->. run. reflexivity.
  - intros ->. run. intros records lerr w2 HList. fold ask. rewrite HList. run. split.
    + intros e ->. run. rewrite <- !app_assoc. reflexivity.
    + intros -> ->. cbn [length Nat.eqb negb]. run.
      intros created cerr w3 HCreate. fold rr. rewrite HCreate. run.
      destruct cerr; run; repeat split.
Qed.

(** The scan logs one line when it finds the port, and nothing otherwise. *)
Lemma scan_ports_log ports want port (s : State W) :
  snd (scan_ports ports want port s)
  = mkState (st_r s) (st_world s) (st_calls s)
      (st_log s ++ if existsb (fun p => (sp_Port p =? want)%Z) ports
                   then [LogInfo 1 "Ports matched"] else [])
  /\ exists found, fst (scan_ports ports want port s) = Returned found.
Proof.
  induction ports as [|p ports IH]; cbn [scan_ports existsb].
  - cbn. rewrite app_nil_r. destruct s; eauto.
  - destruct (sp_Port p =? want)%Z; cbn [orb].
    + unfold logger_Info, emit_log, bind, ret. cbn. eauto.
    + exact IH.
Qed.

(** X13: When the target service is found, the only effects of getTargetURL
    are the one Get call and, if and only if the service exposes the requested
    port, the log line Ports matched: the port scan influences nothing but the
    log (this holds on the panicking path too). *)
Theorem getTargetURL_state (s : State W) svc w :
  let r := st_r s in
  let ref := cts_Service (te_Spec r) in
  let key := mkNamespacedName (sr_Name ref) (sr_Namespace ref) in
  client_Get KService key (st_world s) = ((svc, None), w) ->
  snd (getTargetURL s)
  = mkState r w (st_calls s ++ [CallGet KService key])
      (st_log s ++ if has_port (sr_Port ref) svc then [LogInfo 1 "Ports matched"] else []).
Proof.
  intros r ref key HGet. unfold getTargetURL, Get, call, get_r, bind at 1 2. cbn.
  fold r. fold ref. fold key. rewrite HGet. cbn.
  match goal with
  | |- context [bind (scan_ports ?ps ?want ?p) ?k ?s1] =>
      destruct (scan_ports_log ps want p s1) as (Hlog & found & Hfound);
      destruct (scan_ports ps want p s1) as [o s2] eqn:Hscan;
      cbn [fst snd] in Hlog, Hfound; subst o s2;
      rewrite (bind_returned _ k _ _ _ Hscan)
  end.
  cbn [addr_of st_r st_world st_calls st_log]. unfold has_port.
  destruct (String.eqb (svc_Type svc) ServiceTypeLoadBalancer).
  - unfold at_index, bind, ret, do_panic. destruct (svc_Ingress svc); reflexivity.
  - reflexivity.
Qed.

(** X14: When the Get of the target service reports an error, getTargetURL
    returns the empty string and that error unchanged, whatever its kind; an
    error line is logged only when the error is a not-found error. *)
Theorem getTargetURL_fetch_error (s : State W) svc e w :
  let r := st_r s in
  let ref := cts_Service (te_Spec r) in
  let key := mkNamespacedName (sr_Name ref) (sr_Namespace ref) in
  client_Get KService key (st_world s) = ((svc, Some e), w) ->
  getTargetURL s
  = (Returned ("", Some e),
     mkState r w (st_calls s ++ [CallGet KService key])
       (st_log s ++ if IsNotFound e
                    then [LogError (Some e) "target service not present"] else [])).
Proof.
  intros r ref key HGet. unfold getTargetURL. unfold_calls. unfold_monad. run.
  fold r. fold ref. fold key. rewrite HGet. run.
  destruct (IsNotFound e); run; [reflexivity|]. rewrite app_nil_r. reflexivity.
Qed.

Lemma string_of_list_ascii_length (l : list ascii) :
  String.length (string_of_list_ascii l) = length l.
Proof. induction l as [|a l IH]; cbn; congruence. Qed.

(** X15: generateTunnelSecret always returns (it cannot panic), makes exactly
    one read of 32 bytes from crypto/rand, returns the error of that read
    unchanged, and the secret it returns always has 44 characters (the padded
    base64 text of a 32-byte buffer), even when the read failed. *)
Theorem generateTunnelSecret_shape (s : State W) :
  exists secret err,
    fst (generateTunnelSecret s) = Returned (secret, err)
    /\ String.length secret = 44%nat
    /\ err = snd (fst (rand_source 32 (st_world s)))
    /\ st_calls (snd (generateTunnelSecret s)) = st_calls s ++ [CallRandRead 32]
    /\ st_r (snd (generateTunnelSecret s)) = st_r s.
Proof.
  unfold generateTunnelSecret. unfold_calls. unfold_monad. run.
  change (length (make_bytes 32)) with 32%nat.
  destruct (rand_source 32 (st_world s)) as [[data err] w]. run.
  do 2 eexists. split; [reflexivity|]. split; [|repeat split].
  unfold Base64.EncodeToString.
  rewrite string_of_list_ascii_length, Encode_length, fill_length. reflexivity.
Qed.

End OtherSteps.

(** ** The paths of the child synchronisations *)

Ltac sync_start :=
  unfold createSecret, createConfigMap, createDeployment; unfold_calls; unfold_monad; run.

Section ChildPaths.
Context {W : Type} `{!Client W} `{!Cloudflare W} `{!CryptoRand W}.
Context `{!Models} `{!Libraries}.

(** X16: If SetControllerReference refuses the desired object, createSecret,
    createConfigMap and createDeployment return (nil, that error) without any
    cluster call; createConfigMap also returns the error of its builder before
    stamping, without any call or log line. *)
Theorem sync_refused_makes_no_call :
  (forall (s : State W) ct o e,
      let r := st_r s in
      SetControllerReference ct KSecret
        (GetSecret (mkSecretModel (te_Name r) (te_Namespace r) (te_TunnelSecret r)
                      (te_TunnelID r)))
        = (o, Some e) ->
      fst (createSecret ct s) = Returned (None, Some e)
      /\ st_calls (snd (createSecret ct s)) = st_calls s
      /\ st_world (snd (createSecret ct s)) = st_world s)
  /\ (forall (s : State W) ct url built e,
      let r := st_r s in
      GetConfigMap (mkConfigMapModel (te_Name r) (te_Namespace r) url (te_TunnelID r)
                      (cts_Domain (te_Spec r)))
        = (built, Some e) ->
      createConfigMap ct url s = (Returned (None, Some e), s))
  /\ (forall (s : State W) ct url built o e,
      let r := st_r s in
      GetConfigMap (mkConfigMapModel (te_Name r) (te_Namespace r) url (te_TunnelID r)
                      (cts_Domain (te_Spec r)))
        = (built, None) ->
      SetControllerReference ct KConfigMap built = (o, Some e) ->
      fst (createConfigMap ct url s) = Returned (None, Some e)
      /\ st_calls (snd (createConfigMap ct url s)) = st_calls s
      /\ st_world (snd (createConfigMap ct url s)) = st_world s)
  /\ (forall (s : State W) ct secret configMap o e,
      let r := st_r s in
      SetControllerReference ct KDeployment
        (GetDeployment (mkDeploymentModel (te_Name r) (te_Namespace r)
                          (cts_Replicas (te_Spec r)) (te_TunnelID r) secret configMap))
        = (o, Some e) ->
      fst (createDeployment ct secret configMap s) = Returned (None, Some e)
      /\ st_calls (snd (createDeployment ct secret configMap s)) = st_calls s
      /\ st_world (snd (createDeployment ct secret configMap s)) = st_world s).
Proof.
  split; [|split; [|split]].
  - intros s ct o e r HOwner. sync_start. fold r. rewrite HOwner. run. repeat split.
  - intros s ct url built e r HBuild. sync_start. fold r. rewrite HBuild. reflexivity.
  - intros s ct url built o e r HBuild HOwner. sync_start. fold r.
    rewrite HBuild, HOwner. run. repeat split.
  - intros s ct secret configMap o e r HOwner. sync_start. fold r. rewrite HOwner. run.
    repeat split.
Qed.

(** X17: If the Get of the existing child fails with an error that is not a
    not-found error, each of the three synchronisations returns (nil, that
    error) and makes no Create or Update call. *)
Theorem sync_fetch_error_makes_no_write :
  (forall (s : State W) ct desired fetched e w1,
      let r := st_r s in
      SetControllerReference ct KSecret
        (GetSecret (mkSecretModel (te_Name r) (te_Namespace r) (te_TunnelSecret r)
                      (te_TunnelID r)))
        = (desired, None) ->
      let key := mkNamespacedName (om_Name (sec_Meta desired)) (te_Namespace r) in
      client_Get KSecret key (st_world s) = ((fetched, Some e), w1) ->
      IsNotFound e = false ->
      fst (createSecret ct s) = Returned (None, Some e)
      /\ st_calls (snd (createSecret ct s)) = st_calls s ++ [CallGet KSecret key]
      /\ st_world (snd (createSecret ct s)) = w1)
  /\ (forall (s : State W) ct url built desired fetched e w1,
      let r := st_r s in
      GetConfigMap (mkConfigMapModel (te_Name r) (te_Namespace r) url (te_TunnelID r)
                      (cts_Domain (te_Spec r)))
        = (built, None) ->
      SetControllerReference ct KConfigMap built = (desired, None) ->
      let key := mkNamespacedName (om_Name (cm_Meta desired)) (te_Namespace r) in
      client_Get KConfigMap key (st_world s) = ((fetched, Some e), w1) ->
      IsNotFound e = false ->
      fst (createConfigMap ct url s) = Returned (None, Some e)
      /\ st_calls (snd (createConfigMap ct url s)) = st_calls s ++ [CallGet KConfigMap key]
      /\ st_world (snd (createConfigMap ct url s)) = w1)
  /\ (forall (s : State W) ct secret configMap desired fetched e w1,
      let r := st_r s in
      SetControllerReference ct KDeployment
        (GetDeployment (mkDeploymentModel (te_Name r) (te_Namespace r)
                          (cts_Replicas (te_Spec r)) (te_TunnelID r) secret configMap))
        = (desired, None) ->
      let key := mkNamespacedName (om_Name (dep_Meta desired)) (te_Namespace r) in
      client_Get KDeployment key (st_world s) = ((fetched, Some e), w1) ->
      IsNotFound e = false ->
      fst (createDeployment ct secret configMap s) = Returned (None, Some e)
      /\ st_calls (snd (createDeployment ct secret configMap s))
         = st_calls s ++ [CallGet KDeployment key]
      /\ st_world (snd (createDeployment ct secret configMap s)) = w1).
Proof.
  split; [|split].
  - intros s ct desired fetched e w1 r HOwner key HGet HNF. sync_start. fold r.
    rewrite HOwner. run. fold key. rewrite HGet. run. rewrite HNF. run. repeat split.
  - intros s ct url built desired fetched e w1 r HBuild HOwner key HGet HNF. sync_start.
    fold r. rewrite HBuild, HOwner. run. fold key. rewrite HGet. run. rewrite HNF. run.
    repeat split.
  - intros s ct secret configMap desired fetched e w1 r HOwner key HGet HNF. sync_start.
    fold r. rewrite HOwner. run. fold key. rewrite HGet. run. rewrite HNF. run.
    repeat split.
Qed.

(** X18: If the child is absent and the Create call fails, each of the three
    synchronisations returns (nil, the error of Create), not the not-found
    error of the Get; the calls are the Get and the Create of the
    owner-stamped object. *)
Theorem sync_create_error_is_returned :
  (forall (s : State W) ct desired fetched e w1 created e' w2,
      let r := st_r s in
      SetControllerReference ct KSecret
        (GetSecret (mkSecretModel (te_Name r) (te_Namespace r) (te_TunnelSecret r)
                      (te_TunnelID r)))
        = (desired, None) ->
      let key := mkNamespacedName (om_Name (sec_Meta desired)) (te_Namespace r) in
      client_Get KSecret key (st_world s) = ((fetched, Some e), w1) ->
      IsNotFound e = true ->
      client_Create KSecret desired w1 = ((created, Some e'), w2) ->
      fst (createSecret ct s) = Returned (None, Some e')
      /\ st_calls (snd (createSecret ct s))
         = st_calls s ++ [CallGet KSecret key; CallCreate KSecret desired]
      /\ st_world (snd (createSecret ct s)) = w2)
  /\ (forall (s : State W) ct url built desired fetched e w1 created e' w2,
      let r := st_r s in
      GetConfigMap (mkConfigMapModel (te_Name r) (te_Namespace r) url (te_TunnelID r)
                      (cts_Domain (te_Spec r)))
        = (built, None) ->
      SetControllerReference ct KConfigMap built = (desired, None) ->
      let key := mkNamespacedName (om_Name (cm_Meta desired)) (te_Namespace r) in
      client_Get KConfigMap key (st_world s) = ((fetched, Some e), w1) ->
      IsNotFound e = true ->
      client_Create KConfigMap desired w1 = ((created, Some e'), w2) ->
      fst (createConfigMap ct url s) = Returned (None, Some e')
      /\ st_calls (snd (createConfigMap ct url s))
         = st_calls s ++ [CallGet KConfigMap key; CallCreate KConfigMap desired]
      /\ st_world (snd (createConfigMap ct url s)) = w2)
  /\ (forall (s : State W) ct secret configMap desired fetched e w1 created e' w2,
      let r := st_r s in
      SetControllerReference ct KDeployment
        (GetDeployment (mkDeploymentModel (te_Name r) (te_Namespace r)
                          (cts_Replicas (te_Spec r)) (te_TunnelID r) secret configMap))
        = (desired, None) ->
      let key := mkNamespacedName (om_Name (dep_Meta desired)) (te_Namespace r) in
      client_Get KDeployment key (st_world s) = ((fetched, Some e), w1) ->
      IsNotFound e = true ->
      client_Create KDeployment desired w1 = ((created, Some e'), w2) ->
      fst (createDeployment ct secret configMap s) = Returned (None, Some e')
      /\ st_calls (snd (createDeployment ct secret configMap s))
         = st_calls s ++ [CallGet KDeployment key; CallCreate KDeployment desired]
      /\ st_world (snd (createDeployment ct secret configMap s)) = w2).
Proof.
  split; [|split].
  - intros s ct desired fetched e w1 created e' w2 r HOwner key HGet HNF HCreate.
    sync_start. fold r. rewrite HOwner. run. fold key. rewrite HGet. run. rewrite HNF. run.
    rewrite HCreate. run. rewrite <- !app_assoc. repeat split.
  - intros s ct url built desired fetched e w1 created e' w2 r HBuild HOwner key HGet HNF
      HCreate.
    sync_start. fold r. rewrite HBuild, HOwner. run. fold key. rewrite HGet. run.
    rewrite HNF. run. rewrite HCreate. run. rewrite <- !app_assoc. repeat split.
  - intros s ct secret configMap desired fetched e w1 created e' w2 r HOwner key HGet HNF
      HCreate.
    sync_start. fold r. rewrite HOwner. run. fold key. rewrite HGet. run. rewrite HNF. run.
    rewrite HCreate. run. rewrite <- !app_assoc. repeat split.
Qed.

(** X19: If the child exists, each of the three synchronisations makes exactly
    a Get and an Update of the owner-stamped desired object, and returns the
    object as Update left it with no error, or (nil, the error of Update). *)
Theorem sync_present_is_updated :
  (forall (s : State W) ct desired fetched w1 updated uerr w2,
      let r := st_r s in
      SetControllerReference ct KSecret
        (GetSecret (mkSecretModel (te_Name r) (te_Namespace r) (te_TunnelSecret r)
                      (te_TunnelID r)))
        = (desired, None) ->
      let key := mkNamespacedName (om_Name (sec_Meta desired)) (te_Namespace r) in
      client_Get KSecret key (st_world s) = ((fetched, None), w1) ->
      client_Update KSecret desired w1 = ((updated, uerr), w2) ->
      fst (createSecret ct s)
      = Returned (match uerr with None => (Some updated, None) | Some e => (None, Some e) end)
      /\ st_calls (snd (createSecret ct s))
         = st_calls s ++ [CallGet KSecret key; CallUpdate KSecret desired]
      /\ st_world (snd (createSecret ct s)) = w2)
  /\ (forall (s : State W) ct url built desired fetched w1 updated uerr w2,
      let r := st_r s in
      GetConfigMap (mkConfigMapModel (te_Name r) (te_Namespace r) url (te_TunnelID r)
                      (cts_Domain (te_Spec r)))
        = (built, None) ->
      SetControllerReference ct KConfigMap built = (desired, None) ->
      let key := mkNamespacedName (om_Name (cm_Meta desired)) (te_Namespace r) in
      client_Get KConfigMap key (st_world s) = ((fetched, None), w1) ->
      client_Update KConfigMap desired w1 = ((updated, uerr), w2) ->
      fst (createConfigMap ct url s)
      = Returned (match uerr with None => (Some updated, None) | Some e => (None, Some e) end)
      /\ st_calls (snd (createConfigMap ct url s))
         = st_calls s ++ [CallGet KConfigMap key; CallUpdate KConfigMap desired]
      /\ st_world (snd (createConfigMap ct url s)) = w2)
  /\ (forall (s : State W) ct secret configMap desired fetched w1 updated uerr w2,
      let r := st_r s in
      SetControllerReference ct KDeployment
        (GetDeployment (mkDeploymentModel (te_Name r) (te_Namespace r)
                          (cts_Replicas (te_Spec r)) (te_TunnelID r) secret configMap))
        = (desired, None) ->
      let key := mkNamespacedName (om_Name (dep_Meta desired)) (te_Namespace r) in
      client_Get KDeployment key (st_world s) = ((fetched, None), w1) ->
      client_Update KDeployment desired w1 = ((updated, uerr), w2) ->
      fst (createDeployment ct secret configMap s)
      = Returned (match uerr with None => (Some updated, None) | Some e => (None, Some e) end)
      /\ st_calls (snd (createDeployment ct secret configMap s))
         = st_calls s ++ [CallGet KDeployment key; CallUpdate KDeployment desired]
      /\ st_world (snd (createDeployment ct secret configMap s)) = w2).
Proof.
  split; [|split].
  - intros s ct desired fetched w1 updated uerr w2 r HOwner key HGet HUpdate.
    sync_start. fold r. rewrite HOwner. run. fold key. rewrite HGet. run.
    rewrite HUpdate. run. destruct uerr; run; rewrite <- !app_assoc; repeat split.
  - intros s ct url built desired fetched w1 updated uerr w2 r HBuild HOwner key HGet HUpdate.
    sync_start. fold r. rewrite HBuild, HOwner. run. fold key. rewrite HGet. run.
    rewrite HUpdate. run. destruct uerr; run; rewrite <- !app_assoc; repeat split.
  - intros s ct secret configMap desired fetched w1 updated uerr w2 r HOwner key HGet HUpdate.
    sync_start. fold r. rewrite HOwner. run. fold key. rewrite HGet. run.
    rewrite HUpdate. run. destruct uerr; run; rewrite <- !app_assoc; repeat split.
Qed.

(** X20: On every path, the calls of a synchronisation are at most one Get of
    its kind followed by at most one Create or Update, and the object written
    is always the one SetControllerReference returned without error (the owner
    reference is stamped before any write). *)
Theorem sync_writes_the_stamped_object :
  (forall (s : State W) ct,
      let r := st_r s in
      exists new,
        st_calls (snd (createSecret ct s)) = st_calls s ++ new
        /\ sync_shape KSecret new = true
        /\ Forall (stamped KSecret
                     (SetControllerReference ct KSecret
                        (GetSecret (mkSecretModel (te_Name r) (te_Namespace r)
                                      (te_TunnelSecret r) (te_TunnelID r))))) new)
  /\ (forall (s : State W) ct url,
      let r := st_r s in
      exists new,
        st_calls (snd (createConfigMap ct url s)) = st_calls s ++ new
        /\ sync_shape KConfigMap new = true
        /\ Forall (stamped KConfigMap
                     (SetControllerReference ct KConfigMap
                        (fst (GetConfigMap (mkConfigMapModel (te_Name r) (te_Namespace r) url
                                              (te_TunnelID r) (cts_Domain (te_Spec r))))))) new)
  /\ (forall (s : State W) ct secret configMap,
      let r := st_r s in
      exists new,
        st_calls (snd (createDeployment ct secret configMap s)) = st_calls s ++ new
        /\ sync_shape KDeployment new = true
        /\ Forall (stamped KDeployment
                     (SetControllerReference ct KDeployment
                        (GetDeployment (mkDeploymentModel (te_Name r) (te_Namespace r)
                                          (cts_Replicas (te_Spec r)) (te_TunnelID r)
                                          secret configMap)))) new).
Proof.
  split; [|split].
  - intros s ct r. sync_start. fold r.
    destruct (SetControllerReference ct KSecret _) as [desired oerr].
    split_answers; rewrite <- ?app_assoc; cbn [app]; rewrite ?app_nil_r;
      eexists; (split; [try reflexivity|]).
    all: try (instantiate (1 := []); symmetry; apply app_nil_r).
    all: split; [reflexivity|]; repeat constructor; unfold stamped; cbn; auto; discriminate.
  - intros s ct url r. sync_start. fold r.
    destruct (GetConfigMap _) as [built berr].
    destruct berr.
    { exists []. rewrite app_nil_r. repeat split. constructor. }
    cbn [fst].
    destruct (SetControllerReference ct KConfigMap _) as [desired oerr].
    split_answers; rewrite <- ?app_assoc; cbn [app]; rewrite ?app_nil_r;
      eexists; (split; [try reflexivity|]).
    all: try (instantiate (1 := []); symmetry; apply app_nil_r).
    all: split; [reflexivity|]; repeat constructor; unfold stamped; cbn; auto; discriminate.
  - intros s ct secret configMap r. sync_start. fold r.
    destruct (SetControllerReference ct KDeployment _) as [desired oerr].
    split_answers; rewrite <- ?app_assoc; cbn [app]; rewrite ?app_nil_r;
      eexists; (split; [try reflexivity|]).
    all: try (instantiate (1 := []); symmetry; apply app_nil_r).
    all: split; [reflexivity|]; repeat constructor; unfold stamped; cbn; auto; discriminate.
Qed.

End ChildPaths.

(* ================================================================== *)
(** * Further properties of the pass *)
(* ================================================================== *)

(** ** The order of the calls of a pass *)


Section Shapes.
Context {W : Type} `{!Client W} `{!Cloudflare W} `{!CryptoRand W}.
Context `{!Models} `{!Libraries}.
















End Shapes.



Section Protocol.
Context {W : Type} `{!Client W} `{!Cloudflare W} `{!CryptoRand W}.
Context `{!Models} `{!Libraries}.


End Protocol.

(** ** A pass that succeeds *)

Section Success.
Context {W : Type} `{!Client W} `{!Cloudflare W} `{!CryptoRand W}.
Context `{!Models} `{!Libraries}.

Lemma on_return_ret {A} (a : A) (Q : A -> list Call -> Prop) :
  Q a [] -> on_return (W:=W) (ret a) Q.
Proof.
  intros HQ s b Hb. cbn in Hb. inversion Hb; subst b.
  exists []. cbn. now rewrite app_nil_r.
Qed.

Lemma on_return_bind {A B} (m : M W A) (k : A -> M W B) Q1 (Q : B -> list Call -> Prop) :
  on_return m Q1 ->
  (forall a n1, Q1 a n1 -> on_return (k a) (fun b n2 => Q b (n1 ++ n2))) ->
  on_return (bind m k) Q.
Proof.
  intros Hm Hk s b. unfold bind.
  specialize (Hm s). destruct (m s) as [[a|p] s1]; [|discriminate].
  destruct (Hm a eq_refl) as (n1 & Hc1 & HQ1). cbn [snd] in Hc1.
  intros Hb. destruct (Hk a n1 HQ1 s1 b Hb) as (n2 & Hc2 & HQ).
  exists (n1 ++ n2). split; [rewrite Hc2, Hc1; now rewrite app_assoc | exact HQ].
Qed.

Lemma on_return_emits {A} P (m : M W A) :
  emits P m -> on_return m (fun _ new => Forall P new).
Proof. intros Hm s a _. apply Hm. Qed.

Lemma on_return_weaken {A} (m : M W A) (Q1 Q2 : A -> list Call -> Prop) :
  (forall a new, Q1 a new -> Q2 a new) -> on_return m Q1 -> on_return m Q2.
Proof.
  intros HQ Hm s a Ha. destruct (Hm s a Ha) as (new & Hc & H1). eauto.
Qed.

Lemma no_cluster_write (P : Call -> Prop) new :
  (forall c, P c -> is_cluster_write c = false) -> Forall P new -> writes_nothing new.
Proof.
  intros HP Hall. unfold writes_nothing.
  induction Hall as [|c l Hc _ IH]; cbn; [reflexivity|]. now rewrite (HP c Hc).
Qed.

Lemma quiet_step {A} (m : M W A) (P : Call -> bool) :
  (forall c, P c = true -> is_cluster_write c = false) ->
  emits (fun c => P c = true) m -> on_return m (fun _ new => writes_nothing new).
Proof.
  intros HP Hm. eapply on_return_weaken; [| apply on_return_emits, Hm].
  intros a new. now apply no_cluster_write.
Qed.

Lemma silent_step {A} (m : M W A) :
  emits (fun _ => False) m -> on_return m (fun _ new => writes_nothing new).
Proof.
  intros Hm. eapply on_return_weaken; [| apply on_return_emits, Hm].
  intros a new. apply no_cluster_write. intros c [].
Qed.

Lemma createSecret_updates ct : on_return (W:=W) (createSecret ct) (updated_once KSecret).
Proof.
  intros s a. unfold createSecret. unfold_calls. unfold_monad. run.
  split_answers; intros [= <-]; rewrite <- ?app_assoc; cbn [app];
    first [ eexists; split; [reflexivity|]
          | exists []; split; [symmetry; apply app_nil_r|] ];
    unfold updated_once; cbn; intros Hok; try discriminate; eauto.
Qed.

Lemma createConfigMap_updates ct url :
  on_return (W:=W) (createConfigMap ct url) (updated_once KConfigMap).
Proof.
  intros s a. unfold createConfigMap. unfold_calls. unfold_monad. run.
  split_answers; intros [= <-]; rewrite <- ?app_assoc; cbn [app];
    first [ eexists; split; [reflexivity|]
          | exists []; split; [symmetry; apply app_nil_r|] ];
    unfold updated_once; cbn; intros Hok; try discriminate; eauto.
Qed.

Lemma createDeployment_updates ct secret configMap :
  on_return (W:=W) (createDeployment ct secret configMap) (updated_once KDeployment).
Proof.
  intros s a. unfold createDeployment. unfold_calls. unfold_monad. run.
  split_answers; intros [= <-]; rewrite <- ?app_assoc; cbn [app];
    first [ eexists; split; [reflexivity|]
          | exists []; split; [symmetry; apply app_nil_r|] ];
    unfold updated_once; cbn; intros Hok; try discriminate; eauto.
Qed.

Ltac class_no_write :=
  let c := fresh "c" in intros c; destruct c as [k ?|k ?|k ?| | | | | | | |];
  try destruct k; cbn; auto; discriminate.

(** X22: A pass that returns a nil error made exactly three cluster writes: an
    Update of the Secret, of the ConfigMap and of the Deployment, in this
    order, and no Create; so a pass in which a child had to be created never
    succeeds. *)
Theorem Reconcile_success_updates_children req (s : State W) res :
  fst (Reconcile req s) = Returned (res, None) ->
  exists secret configMap deployment,
    List.filter is_cluster_write (st_calls (snd (Reconcile req s)))
    = List.filter is_cluster_write (st_calls s)
        ++ [CallUpdate KSecret secret; CallUpdate KConfigMap configMap;
            CallUpdate KDeployment deployment].
Proof.
  intros Hok.
  assert (Hpass : on_return (W:=W) (Reconcile req)
            (fun out new =>
               snd out = None ->
               exists secret configMap deployment,
                 List.filter is_cluster_write new
                 = [CallUpdate KSecret secret; CallUpdate KConfigMap configMap;
                    CallUpdate KDeployment deployment])).
  { unfold Reconcile, logger_Info, logger_Error.
    eapply on_return_bind; [apply silent_step, emits_emit_log | intros ? n0 Hn0].
    eapply on_return_bind;
      [apply (quiet_step _ is_credential_read); [class_no_write|];
       unfold Get; apply emits_call; reflexivity | intros [ct err] n1 Hn1].
    destruct err as [e|].
    { eapply on_return_bind; [apply silent_step, emits_emit_log | intros ? n2 Hn2].
      apply on_return_ret. discriminate. }
    eapply on_return_bind; [apply silent_step, emits_emit_log | intros ? n2 Hn2].
    eapply on_return_bind; [apply silent_step, emits_put_r | intros ? n3 Hn3].
    eapply on_return_bind;
      [apply (quiet_step _ is_credential_read); [class_no_write|];
       apply emits_fetchDecodeSecret | intros err n4 Hn4].
    destruct err as [e|]; [apply on_return_ret; discriminate|].
    eapply on_return_bind;
      [apply (quiet_step _ is_tunnel_call); [class_no_write|];
       apply emits_createTunnelRemote | intros err n5 Hn5].
    destruct err as [e|]; [apply on_return_ret; discriminate|].
    eapply on_return_bind; [apply createSecret_updates | intros [secretCreate err] n6 Hn6].
    destruct err as [e|]; [apply on_return_ret; discriminate|].
    eapply on_return_bind;
      [apply (quiet_step _ is_target_call); [class_no_write|];
       apply emits_getTargetURL | intros [url err] n7 Hn7].
    destruct err as [e|].
    { eapply on_return_bind; [apply silent_step, emits_emit_log | intros ? n8 Hn8].
      apply on_return_ret. discriminate. }
    eapply on_return_bind;
      [apply createConfigMap_updates | intros [configMapCreate err] n8 Hn8].
    destruct err as [e|]; [apply on_return_ret; discriminate|].
    eapply on_return_bind;
      [apply createDeployment_updates | intros [deploymentCreate err] n9 Hn9].
    destruct err as [e|]; [apply on_return_ret; discriminate|].
    eapply on_return_bind;
      [apply (quiet_step _ is_dns_call); [class_no_write|];
       apply emits_createDNSCNAME | intros err n10 Hn10].
    destruct err as [e|]; apply on_return_ret; [discriminate|].
    intros _.
    destruct (Hn6 eq_refl) as (d1 & Hd1). destruct (Hn8 eq_refl) as (d2 & Hd2).
    destruct (Hn9 eq_refl) as (d3 & Hd3).
    exists d1, d2, d3. unfold writes_nothing in *.
    rewrite !List.filter_app, Hn0, Hn1, Hn2, Hn3, Hn4, Hn5, Hd1, Hn7, Hd2, Hd3, Hn10.
    reflexivity. }
  destruct (Hpass s (res, None) Hok) as (new & Hcalls & Hnew).
  destruct (Hnew eq_refl) as (d1 & d2 & d3 & Hd).
  exists d1, d2, d3. rewrite Hcalls, List.filter_app, Hd. reflexivity.
Qed.

End Success.

(** ** Paths of the pass, and what the steps leave alone *)

Section PassPaths.
Context {W : Type} `{!Client W} `{!Cloudflare W} `{!CryptoRand W}.
Context `{!Models} `{!Libraries}.

(** X23: If the Get of the custom resource fails, the pass returns the zero
    result with that error after this single call, and r.TunnelExpanded is
    left as the previous pass set it (it is not reset). *)
Theorem Reconcile_fetch_error req (s : State W) ct e w1 :
  client_Get KCloudflareTunnel req (st_world s) = ((ct, Some e), w1) ->
  Reconcile req s
  = (Returned (zero_Result, Some e),
     mkState (st_r s) w1 (st_calls s ++ [CallGet KCloudflareTunnel req])
       (st_log s ++ [LogInfo 0 "Reconciling...";
                     LogError (Some e) "could not fetch CloudflareTunnel"])).
Proof.
  intros HGet. unfold Reconcile. unfold_calls. unfold_monad. run.
  rewrite HGet. run. rewrite <- !app_assoc. reflexivity.
Qed.

(** X24: Once the custom resource is fetched, a pass does not depend on what
    the reconciler held in memory before: two passes from the same world that
    differ only in r.TunnelExpanded have the same result and final state (an
    identifier, credentials or handle kept in memory by an earlier pass is
    discarded at line 78). *)
Theorem Reconcile_forgets_memory req (w : W) ct w1 r1 r2 calls log :
  client_Get KCloudflareTunnel req w = ((ct, None), w1) ->
  Reconcile req (mkState r1 w calls log) = Reconcile req (mkState r2 w calls log).
Proof.
  intros HGet. unfold Reconcile.
  rewrite !(bind_returned (logger_Info 0 "Reconciling...") _ _ tt _ eq_refl).
  unfold Get.
  erewrite !(bind_returned (call _ _)) by (apply call_run; cbn [st_world]; exact HGet).
  cbv beta iota.
  rewrite !(bind_returned (logger_Info 1 "Resource fetched") _ _ tt _ eq_refl).
  rewrite !(bind_returned (put_r _) _ _ tt _ eq_refl).
  reflexivity.
Qed.

(** X25: If credential lookup succeeds and createTunnelRemote returns an
    error, the pass returns the zero result with that error in exactly the
    state the tunnel step left: no child synchronisation, target fetch or DNS
    call is made. *)
Theorem Reconcile_tunnel_fail_fast req (s : State W) ct w1 s2 e s3 :
  client_Get KCloudflareTunnel req (st_world s) = ((ct, None), w1) ->
  fetchDecodeSecret (loaded s req ct w1) = (Returned None, s2) ->
  createTunnelRemote s2 = (Returned (Some e), s3) ->
  Reconcile req s = (Returned (zero_Result, Some e), s3).
Proof.
  intros HGet HCred HTunnel. unfold Reconcile.
  rewrite (bind_returned (logger_Info 0 "Reconciling...") _ s tt _ eq_refl).
  unfold Get.
  erewrite (bind_returned (call _ _)); [| apply call_run; cbn [st_world]; exact HGet].
  cbv beta iota.
  rewrite (bind_returned (logger_Info 1 "Resource fetched") _ _ tt _ eq_refl).
  rewrite (bind_returned (put_r _) _ _ tt _ eq_refl).
  unfold loaded in HCred. cbn [st_r st_world st_calls st_log logger_Info emit_log put_r].
  rewrite (bind_returned _ _ _ _ _ HCred). cbv beta iota.
  rewrite (bind_returned _ _ _ _ _ HTunnel). reflexivity.
Qed.

(** X26: createSecret, createConfigMap, createDeployment, getTargetURL and
    createDNSCNAME never assign a field of the reconciler, and
    fetchDecodeSecret assigns only AccountToken and AccountTag (the spec,
    handle, name, namespace, tunnel identifier and tunnel secret are as
    before). *)
Theorem steps_keep_reconciler :
  (forall (s : State W),
      let r := st_r s in
      let r' := st_r (snd (fetchDecodeSecret s)) in
      te_Spec r' = te_Spec r /\ te_API r' = te_API r /\ te_Name r' = te_Name r
      /\ te_Namespace r' = te_Namespace r /\ te_TunnelID r' = te_TunnelID r
      /\ te_TunnelSecret r' = te_TunnelSecret r)
  /\ (forall ct, keeps_r (W:=W) (createSecret ct))
  /\ keeps_r (W:=W) getTargetURL
  /\ (forall ct url, keeps_r (W:=W) (createConfigMap ct url))
  /\ (forall ct secret configMap, keeps_r (W:=W) (createDeployment ct secret configMap))
  /\ keeps_r (W:=W) createDNSCNAME.
Proof.
  split; [|split; [|split; [|split; [|split]]]].
  - intros s r r'. subst r r'.
    unfold fetchDecodeSecret. unfold_calls. unfold_monad. run. split_answers; repeat split.
  - intros ct s. unfold createSecret. unfold_calls. unfold_monad. run. split_answers; reflexivity.
  - intros s. unfold getTargetURL, Get, call, get_r, bind at 1 2. cbn.
    destruct (client_Get _ _ _) as [[svc err] w]. cbn. destruct err as [e|].
    + unfold logger_Error. unfold_monad. destruct (IsNotFound e); reflexivity.
    + match goal with
      | |- context [bind (scan_ports ?ps ?want ?p) ?k ?s1] =>
          destruct (quiet_scan_ports ps want p s1) as (port & l & Hscan);
          rewrite (bind_returned _ k _ _ _ Hscan)
      end.
      cbn [addr_of]. unfold_monad.
      destruct (String.eqb _ _); [destruct (svc_Ingress svc)|]; reflexivity.
  - intros ct url s. unfold createConfigMap. unfold_calls. unfold_monad. run.
    split_answers; reflexivity.
  - intros ct secret configMap s. unfold createDeployment. unfold_calls. unfold_monad. run.
    split_answers; reflexivity.
  - intros s. unfold createDNSCNAME. unfold_calls. unfold_monad. run.
    split_answers; reflexivity.
Qed.

End PassPaths.

(* ================================================================== *)
(** * Runs on the in-memory cluster *)
(* ================================================================== *)

Import Fake.

(** Hypotheses about a concrete cluster hold by running it. *)
Ltac by_run := vm_compute; reflexivity.

(** A cluster-internal service and a load-balanced one. *)
Lemma getTargetURL_derives_url_witness :
  has_port 80 web80 = true
  /\ fst (getTargetURL (at_step foo None (cluster foo web80 [])))
     = Returned ("http://web.default:80", None)
  /\ fst (getTargetURL (at_step foo_https None (cluster foo_https web_lb [])))
     = Returned ("https://10.0.0.5:8080", None).
Proof.
  split; [reflexivity|]. split.
  - destruct (getTargetURL_derives_url (at_step foo None (cluster foo web80 []))
                web80 (cluster foo web80 [])) as [_ Hcluster]; [by_run | by_run |].
    apply Hcluster. discriminate.
  - destruct (getTargetURL_derives_url (at_step foo_https None (cluster foo_https web_lb []))
                web_lb (cluster foo_https web_lb [])) as [Hingress _]; [by_run | by_run |].
    apply (Hingress eq_refl (mkLoadBalancerIngress "10.0.0.5" "") []). reflexivity.
Defined.

(** A load balancer that was not given an address yet. *)
Lemma getTargetURL_load_balancer_ingress_witness :
  svc_Type web_lb_pending = ServiceTypeLoadBalancer
  /\ svc_Ingress web_lb_pending = []
  /\ fst (getTargetURL (at_step foo_https None (cluster foo_https web_lb_pending [])))
     = Panicked (IndexOutOfRange 0 0).
Proof.
  split; [reflexivity|]. split; [reflexivity|].
  destruct (getTargetURL_load_balancer_ingress
              (at_step foo_https None (cluster foo_https web_lb_pending []))
              web_lb_pending (cluster foo_https web_lb_pending []))
    as [Hpanic _]; [by_run | by_run |].
  apply Hpanic. reflexivity.
Defined.

(** Port 80 is asked for, the service exposes 443 only: a URL for port 80
    is returned, and no error. *)
Lemma getTargetURL_missing_port_witness :
  has_port 80 web443 = false
  /\ fst (getTargetURL (at_step foo None (cluster foo web443 [])))
     = Returned ("http://web.default:80", None).
Proof.
  split; [reflexivity|].
  destruct (getTargetURL_missing_port_not_reported (at_step foo None (cluster foo web443 []))
              web443 (cluster foo web443 [])) as [_ Hrun]; [by_run | by_run |].
  rewrite Hrun; [reflexivity | discriminate].
Defined.

(** Two tunnels of the name [foo] on the provider. *)
Lemma createTunnelRemote_ambiguous_witness :
  let s := at_step foo None (cluster foo web80 two_foos) in
  (2 <= length (map fst two_foos))%nat
  /\ fst (createTunnelRemote s) = Returned (Some (Errorf "multiple tunnels exist"))
  /\ st_calls (snd (createTunnelRemote s))
     = [CallNewWithAPIToken "tok";
        CallTunnels handle (mkTunnelListParams "acct" "foo" (Some false) "")]
  /\ tunnels (st_world (snd (createTunnelRemote s))) = two_foos.
Proof.
  intros s. split; [apply le_n|].
  destruct (createTunnelRemote_ambiguous s (mkAPI "tok" "") (st_world s) (map fst two_foos)
              (st_world s)) as (Hout & Hcalls & _ & Hworld & _);
    [by_run | by_run | apply le_n |].
  split; [exact Hout|]. split; [exact Hcalls|]. rewrite Hworld. reflexivity.
Defined.

(** No tunnel on the provider: the 32 bytes of the random source become
    the secret of the tunnel created, and its identifier is adopted. *)
Lemma createTunnelRemote_creates_witness :
  let s := at_step foo None (cluster foo web80 []) in
  Base64.EncodeToString (fill (make_bytes 32) (repeat "*"%byte 32))
  = "KioqKioqKioqKioqKioqKioqKioqKioqKioqKioqKio="
  /\ length (fill (make_bytes 32) (repeat "*"%byte 32)) = 32%nat
  /\ te_TunnelID (st_r (snd (createTunnelRemote s))) = "tunnel-0"
  /\ exists tail,
       st_calls (snd (createTunnelRemote s))
       = [CallNewWithAPIToken "tok";
          CallTunnels handle (mkTunnelListParams "acct" "foo" (Some false) "");
          CallRandRead 32;
          CallCreateTunnel handle
            (mkTunnelCreateParams "acct" "foo" "KioqKioqKioqKioqKioqKioqKioqKioqKioqKioqKio=")]
         ++ tail
       /\ Forall (fun c => is_CreateTunnel c = false) tail.
Proof.
  intros s. split; [by_run|].
  destruct (createTunnelRemote_creates s (mkAPI "tok" "") (st_world s) (st_world s)
              (repeat "*"%byte 32) None (snd (rand_source 32 (st_world s))))
    as [Hlen Hcreate]; [by_run | by_run | by_run |].
  split; [exact Hlen|].
  destruct (Hcreate eq_refl (mkTunnel "tunnel-0" "foo") None
              (snd (cf_CreateTunnel handle
                      (mkTunnelCreateParams "acct" "foo"
                         "KioqKioqKioqKioqKioqKioqKioqKioqKioqKioqKio=")
                      (snd (rand_source 32 (st_world s))))))
    as [Hcalls Hid]; [by_run|].
  split; [exact (Hid eq_refl) | exact Hcalls].
Defined.

(** The domain without a CNAME record, and with one that points elsewhere. *)
Lemma createDNSCNAME_idempotent_witness :
  let fresh := at_step foo7 (Some handle) (cluster foo7 web80 seven) in
  let taken := at_step foo7 (Some handle) (with_record stale (cluster foo7 web80 seven)) in
  st_calls (snd (createDNSCNAME fresh))
  = [CallZoneIDByName handle "example.com";
     CallDNSRecords handle "zone-1" (mkDNSRecord "CNAME" "t.example.com" "" 0);
     CallCreateDNSRecord handle "zone-1"
       (mkDNSRecord "CNAME" "t.example.com" "tunnel-7.cfargotunnel.com" 0)]
  /\ st_calls (snd (createDNSCNAME taken))
     = [CallZoneIDByName handle "example.com";
        CallDNSRecords handle "zone-1" (mkDNSRecord "CNAME" "t.example.com" "" 0)]
  /\ dnsRecords (st_world (snd (createDNSCNAME taken))) = [("zone-1", stale)].
Proof.
  intros fresh taken. split; [|split].
  - destruct (createDNSCNAME_idempotent fresh handle "zone-1" (st_world fresh) []
                (st_world fresh)) as [_ Hcreate]; [by_run | by_run | by_run |].
    apply Hcreate. reflexivity.
  - destruct (createDNSCNAME_idempotent taken handle "zone-1" (st_world taken) [stale]
                (st_world taken)) as [Hkeep _]; [by_run | by_run | by_run |].
    rewrite Hkeep; [reflexivity | discriminate].
  - destruct (createDNSCNAME_idempotent taken handle "zone-1" (st_world taken) [stale]
                (st_world taken)) as [Hkeep _]; [by_run | by_run | by_run |].
    rewrite Hkeep; [reflexivity | discriminate].
Defined.

(** A cluster without any of the children: each synchronisation creates
    its child, and returns the not-found error of the fetch. *)
Lemma create_absent_witness :
  let s := at_step foo7 (Some handle) (cluster foo7 web80 seven) in
  (fst (createSecret foo7 s) = Returned (None, Some (not_found "foo"))
   /\ is_Some (secrets (st_world (snd (createSecret foo7 s))) !! ("default", "foo")))
  /\ (fst (createConfigMap foo7 "http://web.default:80" s)
      = Returned (None, Some (not_found "foo"))
      /\ is_Some (configMaps (st_world (snd (createConfigMap foo7 "http://web.default:80" s)))
                    !! ("default", "foo")))
  /\ (fst (createDeployment foo7 None None s) = Returned (None, Some (not_found "foo"))
      /\ is_Some (deployments (st_world (snd (createDeployment foo7 None None s)))
                    !! ("default", "foo"))).
Proof.
  intros s.
  destruct (create_absent_returns_fetch_error (W:=World)) as (HSecret & HConfigMap & HDeployment).
  split; [|split].
  - split; [|vm_compute; eexists; reflexivity].
    set (desired := fst (SetControllerReference foo7 KSecret
                           (GetSecret (mkSecretModel "foo" "default" "" "tunnel-7")))).
    destruct (HSecret s foo7 desired (not_found "foo") (zero_obj KSecret) (st_world s)
                desired (snd (client_Create KSecret desired (st_world s))))
      as [Hout _]; [by_run | by_run | by_run | by_run |].
    exact Hout.
  - split; [|vm_compute; eexists; reflexivity].
    set (built := fst (GetConfigMap (mkConfigMapModel "foo" "default" "http://web.default:80"
                                       "tunnel-7" "t.example.com"))).
    set (desired := fst (SetControllerReference foo7 KConfigMap built)).
    destruct (HConfigMap s foo7 "http://web.default:80" built desired (not_found "foo")
                (zero_obj KConfigMap) (st_world s) desired
                (snd (client_Create KConfigMap desired (st_world s))))
      as [Hout _]; [by_run | by_run | by_run | by_run | by_run |].
    exact Hout.
  - split; [|vm_compute; eexists; reflexivity].
    set (desired := fst (SetControllerReference foo7 KDeployment
                           (GetDeployment (mkDeploymentModel "foo" "default" 1 "tunnel-7"
                                             None None)))).
    destruct (HDeployment s foo7 None None desired (not_found "foo") (zero_obj KDeployment)
                (st_world s) desired (snd (client_Create KDeployment desired (st_world s))))
      as [Hout _]; [by_run | by_run | by_run | by_run |].
    exact Hout.
Defined.

(** A cluster without the account secret. *)
Lemma Reconcile_credentials_fail_fast_witness :
  let s := start (without_credentials (cluster foo web80 [])) in
  fst (Reconcile foo_key s) = Returned (zero_Result, Some (not_found "cf-creds"))
  /\ st_calls (snd (Reconcile foo_key s))
     = [CallGet KCloudflareTunnel foo_key; CallGet KSecret (mkNamespacedName "cf-creds" "default")]
  /\ st_world (snd (Reconcile foo_key s)) = st_world s.
Proof.
  intros s.
  destruct (Reconcile_credentials_fail_fast foo_key s foo (st_world s) (not_found "cf-creds")
              (snd (fetchDecodeSecret (loaded s foo_key foo (st_world s)))))
    as [Hrun _]; [by_run | by_run |].
  rewrite Hrun. split; [reflexivity|]. split; by_run.
Defined.

(** A recorded identifier narrows the listing; without one the listing
    goes by name. *)
Lemma Reconcile_listing_filter_witness :
  status_TunnelID (ct_Status foo7) = "tunnel-7"
  /\ List.filter is_Tunnels (st_calls (snd (Reconcile foo_key (start (cluster foo7 web80 seven)))))
     = [CallTunnels handle (mkTunnelListParams "acct" "foo" (Some false) "tunnel-7")]
  /\ status_TunnelID (ct_Status foo) = ""
  /\ List.filter is_Tunnels (st_calls (snd (Reconcile foo_key (start (cluster foo web80 seven)))))
     = [CallTunnels handle (mkTunnelListParams "acct" "foo" (Some false) "")].
Proof.
  split; [reflexivity|]. split; [|split; [reflexivity|]].
  - set (s := start (cluster foo7 web80 seven)).
    destruct (Reconcile_listing_filter foo_key s foo7 (st_world s)
                (snd (fetchDecodeSecret (loaded s foo_key foo7 (st_world s))))
                (mkAPI "tok" "") (st_world s)) as [Hnarrow _]; [by_run | by_run | by_run |].
    rewrite Hnarrow; [by_run | discriminate].
  - set (s := start (cluster foo web80 seven)).
    destruct (Reconcile_listing_filter foo_key s foo (st_world s)
                (snd (fetchDecodeSecret (loaded s foo_key foo (st_world s))))
                (mkAPI "tok" "") (st_world s)) as [_ Hname]; [by_run | by_run | by_run |].
    rewrite Hname; [by_run | reflexivity].
Defined.

(** On the settled cluster the pass resolves [tunnel-0] and updates the
    three children, nothing else. *)
Lemma Reconcile_identifier_not_written_back_witness :
  let s := at_step foo None settled in
  te_TunnelID (st_r (snd (createTunnelRemote s))) = "tunnel-0"
  /\ exists new,
       st_calls (snd (Reconcile foo_key (start settled))) = new
       /\ Forall (fun c => written_kind c <> Some KCloudflareTunnel) new.
Proof.
  intros s.
  destruct (Reconcile_identifier_not_written_back (W:=World)) as (Hwrites & Hlisted & _).
  split.
  - apply (Hlisted s (mkAPI "tok" "") (st_world s) (mkTunnel "tunnel-0" "foo") (st_world s));
      by_run.
  - destruct (Hwrites foo_key (start settled)) as (new & Hcalls & Hall).
    exists new. split; [exact Hcalls|].
    eapply List.Forall_impl; [|exact Hall]. intros c [Hc _]. exact Hc.
Defined.

(** C3 (as stated) fails.  On a fresh cluster the pass creates the tunnel
    [tunnel-0]; on the settled cluster the pass succeeds and resolves
    [tunnel-0].  After either, the custom resource in the cluster is [foo]
    as before, with an empty [Status.TunnelID], and the next pass lists
    the tunnels without an identifier filter. *)
Lemma Reconcile_status_not_written_back :
  let created := snd (Reconcile foo_key (start (cluster foo web80 []))) in
  let resolved := Reconcile foo_key (start settled) in
  (te_TunnelID (st_r created) = "tunnel-0"
   /\ map fst (tunnels (st_world created)) = [mkTunnel "tunnel-0" "foo"]
   /\ cloudflareTunnels (st_world created) !! ("default", "foo") = Some foo)
  /\ (fst resolved = Returned (zero_Result, None)
      /\ te_TunnelID (st_r (snd resolved)) = "tunnel-0"
      /\ cloudflareTunnels (st_world (snd resolved)) !! ("default", "foo") = Some foo
      /\ status_TunnelID (ct_Status foo) <> te_TunnelID (st_r (snd resolved))
      /\ List.filter is_Tunnels (st_calls (snd (Reconcile foo_key (again (snd resolved)))))
         = [CallTunnels handle (mkTunnelListParams "acct" "foo" (Some false) "")]).
Proof.
  cbv zeta. repeat split; try by_run.
  vm_compute. discriminate.
Qed.

(* ================================================================== *)
(** * Further runs on the in-memory cluster *)
(* ================================================================== *)

(** ** Credential lookup *)

Lemma fetchDecodeSecret_succeeds_iff_witness :
  let s := mkState (expand foo) (cluster foo web80 []) [] [] in
  fst (fetchDecodeSecret s) = Returned None.
Proof.
  intros s.
  apply (fetchDecodeSecret_succeeds_iff s cf_creds None (st_world s)); [by_run|].
  split; [intros Hname; vm_compute in Hname; discriminate|].
  split; [reflexivity|].
  split; [exists (list_byte_of_string "tok") | exists (list_byte_of_string "acct")]; by_run.
Defined.

Lemma fetchDecodeSecret_sets_credentials_witness :
  let s := mkState (expand foo) (cluster foo web80 []) [] [] in
  te_AccountToken (st_r (snd (fetchDecodeSecret s))) = "tok"
  /\ te_AccountTag (st_r (snd (fetchDecodeSecret s))) = "acct"
  /\ te_TunnelID (st_r (snd (fetchDecodeSecret s))) = te_TunnelID (st_r s).
Proof.
  intros s.
  rewrite (fetchDecodeSecret_sets_credentials s cf_creds (st_world s)
             (list_byte_of_string "tok") (list_byte_of_string "acct")).
  - repeat split.
  - intros Hname. vm_compute in Hname. discriminate.
  - by_run.
  - by_run.
  - by_run.
Defined.

Lemma fetchDecodeSecret_errors_witness :
  let s := mkState (expand foo) (without_credentials (cluster foo web80 [])) [] [] in
  fst (fetchDecodeSecret s) = Returned (Some (not_found "cf-creds"))
  /\ st_r (snd (fetchDecodeSecret s)) = st_r s.
Proof.
  intros s.
  assert (Hfail : fst (fetchDecodeSecret s) = Returned (Some (not_found "cf-creds"))) by by_run.
  split; [exact Hfail|].
  exact (proj1 (fetchDecodeSecret_errors s (not_found "cf-creds") Hfail)).
Defined.

(** ** The remote tunnel *)

Lemma createTunnelRemote_constructor_error_witness :
  let s := Faulty.at_step foo None [Faulty.FailNewWithAPIToken] (cluster foo web80 []) in
  fst (createTunnelRemote s) = Returned (Some Faulty.provider_error)
  /\ st_calls (snd (createTunnelRemote s)) = [CallNewWithAPIToken "tok"]
  /\ te_API (st_r (snd (createTunnelRemote s))) = None.
Proof.
  intros s.
  rewrite (createTunnelRemote_constructor_error s None Faulty.provider_error (st_world s));
    [repeat split | by_run].
Defined.

Lemma createTunnelRemote_nil_handle_witness :
  let s := Faulty.at_step foo None [Faulty.NilHandle] (cluster foo web80 []) in
  fst (createTunnelRemote s) = Panicked NilPointerDereference
  /\ st_calls (snd (createTunnelRemote s)) = [CallNewWithAPIToken "tok"].
Proof.
  intros s.
  destruct (createTunnelRemote_nil_handle s None (st_world s)) as [_ Hnil]; [by_run|].
  rewrite (Hnil eq_refl). repeat split.
Defined.

Lemma createTunnelRemote_listing_error_witness :
  let s := Faulty.at_step foo None [Faulty.FailTunnels] (cluster foo web80 seven) in
  fst (createTunnelRemote s) = Returned (Some Faulty.provider_error)
  /\ st_calls (snd (createTunnelRemote s))
     = [CallNewWithAPIToken "tok";
        CallTunnels handle (mkTunnelListParams "acct" "foo" (Some false) "")]
  /\ te_TunnelID (st_r (snd (createTunnelRemote s))) = "".
Proof.
  intros s.
  rewrite (createTunnelRemote_listing_error s (mkAPI "tok" "") (st_world s) []
             Faulty.provider_error (st_world s)); [repeat split | by_run | by_run].
Defined.

Lemma createTunnelRemote_reuses_single_witness :
  let s := at_step foo None (cluster foo web80 seven) in
  st_calls (snd (createTunnelRemote s))
  = [CallNewWithAPIToken "tok";
     CallTunnels handle (mkTunnelListParams "acct" "foo" (Some false) "");
     CallTunnelToken handle (mkTunnelTokenParams "acct" "tunnel-7")]
  /\ te_TunnelID (st_r (snd (createTunnelRemote s))) = "tunnel-7"
  /\ tunnels (st_world (snd (createTunnelRemote s))) = seven.
Proof.
  intros s.
  destruct (createTunnelRemote_reuses_single s (mkAPI "tok" "") (st_world s)
              (mkTunnel "tunnel-7" "foo") (st_world s)
              (fst (fst (cf_TunnelToken handle (mkTunnelTokenParams "acct" "tunnel-7")
                           (st_world s))))
              None (st_world s))
    as (Hcalls & Hworld & Hid & _); [by_run | by_run | by_run |].
  split; [exact Hcalls|]. split; [exact Hid|]. rewrite Hworld. reflexivity.
Defined.

Lemma createTunnelRemote_rand_failure_witness :
  let s := Faulty.at_step foo None [Faulty.FailRand] (cluster foo web80 []) in
  fst (createTunnelRemote s) = Returned (Some Faulty.rand_error)
  /\ st_calls (snd (createTunnelRemote s))
     = [CallNewWithAPIToken "tok";
        CallTunnels handle (mkTunnelListParams "acct" "foo" (Some false) "");
        CallRandRead 32].
Proof.
  intros s.
  destruct (createTunnelRemote_rand_failure s (mkAPI "tok" "") (st_world s) (st_world s) []
              Faulty.rand_error (st_world s))
    as (Hout & Hcalls & _); [by_run | by_run | by_run |].
  split; [exact Hout | exact Hcalls].
Defined.

Lemma createTunnelRemote_create_failure_witness :
  let s := Faulty.at_step foo None [Faulty.FailCreateTunnel] (cluster foo web80 []) in
  fst (createTunnelRemote s) = Returned (Some Faulty.provider_error)
  /\ te_TunnelID (st_r (snd (createTunnelRemote s))) = ""
  /\ Fake.tunnels (Faulty.inner (st_world (snd (createTunnelRemote s)))) = [].
Proof.
  intros s.
  destruct (createTunnelRemote_create_failure s (mkAPI "tok" "") (st_world s) (st_world s)
              (repeat "*"%byte 32) (snd (rand_source 32 (st_world s))) zero_Tunnel
              Faulty.provider_error (snd (rand_source 32 (st_world s))))
    as (Hout & _ & Hworld & Hid); [by_run | by_run | by_run | by_run |].
  split; [exact Hout|]. split; [exact Hid|]. rewrite Hworld. reflexivity.
Defined.

Lemma createTunnelRemote_success_witness :
  let s := at_step foo None (cluster foo web80 seven) in
  fst (createTunnelRemote s) = Returned None
  /\ exists cf, te_API (st_r (snd (createTunnelRemote s))) = Some cf
                /\ api_AccountID cf = "acct".
Proof.
  intros s.
  assert (Hok : fst (createTunnelRemote s) = Returned None) by by_run.
  split; [exact Hok|].
  destruct (createTunnelRemote_success s Hok) as (cf & _ & _ & _ & _ & _ & HAPI & Hacct & _).
  exists cf. split; [exact HAPI | exact Hacct].
Defined.

(** ** DNS record and target URL *)

Lemma createDNSCNAME_propagates_errors_witness :
  let lost := Faulty.at_step foo7 (Some handle) [Faulty.FailZoneIDByName]
                (cluster foo7 web80 seven) in
  let down := Faulty.at_step foo7 (Some handle) [Faulty.FailDNSRecords]
                (cluster foo7 web80 seven) in
  (fst (createDNSCNAME lost) = Returned (Some Faulty.provider_error)
   /\ st_calls (snd (createDNSCNAME lost)) = [CallZoneIDByName handle "example.com"])
  /\ (fst (createDNSCNAME down) = Returned (Some Faulty.provider_error)
      /\ st_calls (snd (createDNSCNAME down))
         = [CallZoneIDByName handle "example.com";
            CallDNSRecords handle "zone-1" (mkDNSRecord "CNAME" "t.example.com" "" 0)]).
Proof.
  intros lost down. split.
  - destruct (createDNSCNAME_propagates_errors lost handle "" (Some Faulty.provider_error)
                (st_world lost)) as [Hzone _]; [by_run | by_run |].
    rewrite (Hzone Faulty.provider_error eq_refl). split; reflexivity.
  - destruct (createDNSCNAME_propagates_errors down handle "zone-1" None (st_world down))
      as [_ Hlist]; [by_run | by_run |].
    destruct (Hlist eq_refl [] (Some Faulty.provider_error) (st_world down)) as [Herr _];
      [by_run|].
    rewrite (Herr Faulty.provider_error eq_refl). split; reflexivity.
Defined.

Lemma getTargetURL_state_witness :
  st_log (snd (getTargetURL (at_step foo None (cluster foo web80 []))))
  = [LogInfo 1 "Ports matched"]
  /\ st_log (snd (getTargetURL (at_step foo None (cluster foo web443 [])))) = [].
Proof.
  split.
  - rewrite (getTargetURL_state (at_step foo None (cluster foo web80 [])) web80
               (cluster foo web80 [])); [reflexivity | by_run].
  - rewrite (getTargetURL_state (at_step foo None (cluster foo web443 [])) web443
               (cluster foo web443 [])); [reflexivity | by_run].
Defined.

Lemma getTargetURL_fetch_error_witness :
  let s := at_step foo None (set_objects KService ∅ (cluster foo web80 [])) in
  fst (getTargetURL s) = Returned ("", Some (not_found "web"))
  /\ st_log (snd (getTargetURL s))
     = [LogError (Some (not_found "web")) "target service not present"].
Proof.
  intros s.
  rewrite (getTargetURL_fetch_error s (zero_obj KService) (not_found "web") (st_world s));
    [split; reflexivity | by_run].
Defined.

(** ** Child resources *)

Lemma sync_refused_makes_no_call_witness :
  let s := at_step foo7 (Some handle) (cluster foo7 web80 seven) in
  (fst (createSecret (H0 := Faulty.refusing) foo7 s) = Returned (None, Some Faulty.owner_error)
   /\ st_calls (snd (createSecret (H0 := Faulty.refusing) foo7 s)) = [])
  /\ createConfigMap (H := Faulty.failing_builders) foo7 "http://web.default:80" s
     = (Returned (None, Some Faulty.build_error), s).
Proof.
  intros s. split.
  - destruct (sync_refused_makes_no_call (W:=World) (H0 := Faulty.refusing)) as (HSecret & _).
    destruct (HSecret s foo7 (GetSecret (mkSecretModel "foo" "default" "" "tunnel-7"))
                Faulty.owner_error) as (Hout & Hcalls & _); [by_run|].
    split; [exact Hout | exact Hcalls].
  - destruct (sync_refused_makes_no_call (W:=World) (H := Faulty.failing_builders))
      as (_ & HBuild & _).
    apply (HBuild s foo7 "http://web.default:80" (zero_obj KConfigMap) Faulty.build_error).
    by_run.
Defined.

Lemma sync_fetch_error_makes_no_write_witness :
  let s := Faulty.at_step foo7 (Some handle) [Faulty.FailGet KSecret]
             (cluster foo7 web80 seven) in
  fst (createSecret foo7 s) = Returned (None, Some Faulty.server_error)
  /\ st_calls (snd (createSecret foo7 s))
     = [CallGet KSecret (mkNamespacedName "foo" "default")].
Proof.
  intros s.
  destruct (sync_fetch_error_makes_no_write (W:=Faulty.World)) as (HSecret & _).
  set (desired := fst (SetControllerReference foo7 KSecret
                         (GetSecret (mkSecretModel "foo" "default" "" "tunnel-7")))).
  destruct (HSecret s foo7 desired (zero_obj KSecret) Faulty.server_error (st_world s))
    as (Hout & Hcalls & _); [by_run | by_run | by_run |].
  split; [exact Hout | exact Hcalls].
Defined.

Lemma sync_create_error_is_returned_witness :
  let s := Faulty.at_step foo7 (Some handle) [Faulty.FailCreate KSecret]
             (cluster foo7 web80 seven) in
  fst (createSecret foo7 s) = Returned (None, Some Faulty.server_error)
  /\ Fake.secrets (Faulty.inner (st_world (snd (createSecret foo7 s)))) !! ("default", "foo")
     = None.
Proof.
  intros s.
  destruct (sync_create_error_is_returned (W:=Faulty.World)) as (HSecret & _).
  set (desired := fst (SetControllerReference foo7 KSecret
                         (GetSecret (mkSecretModel "foo" "default" "" "tunnel-7")))).
  destruct (HSecret s foo7 desired (zero_obj KSecret) (not_found "foo") (st_world s)
              desired Faulty.server_error (st_world s))
    as (Hout & _ & Hworld); [by_run | by_run | by_run | by_run |].
  split; [exact Hout|]. rewrite Hworld. by_run.
Defined.

Lemma sync_present_is_updated_witness :
  let s := at_step foo None settled in
  let desired := fst (SetControllerReference foo KSecret
                        (GetSecret (mkSecretModel "foo" "default" "" ""))) in
  fst (createSecret foo s) = Returned (Some desired, None)
  /\ st_calls (snd (createSecret foo s))
     = [CallGet KSecret (mkNamespacedName "foo" "default"); CallUpdate KSecret desired].
Proof.
  intros s desired.
  destruct (sync_present_is_updated (W:=World)) as (HSecret & _).
  destruct (HSecret s foo desired
              (fst (fst (client_Get KSecret (mkNamespacedName "foo" "default") (st_world s))))
              (st_world s) desired None (snd (client_Update KSecret desired (st_world s))))
    as (Hout & Hcalls & _); [by_run | by_run | by_run |].
  split; [exact Hout | exact Hcalls].
Defined.

(** ** The pass *)

Lemma Reconcile_success_updates_children_witness :
  fst (Reconcile foo_key (start settled)) = Returned (zero_Result, None)
  /\ exists secret configMap deployment,
       List.filter is_cluster_write (st_calls (snd (Reconcile foo_key (start settled))))
       = [CallUpdate KSecret secret; CallUpdate KConfigMap configMap;
          CallUpdate KDeployment deployment].
Proof.
  assert (Hok : fst (Reconcile foo_key (start settled)) = Returned (zero_Result, None))
    by by_run.
  split; [exact Hok|].
  exact (Reconcile_success_updates_children foo_key (start settled) zero_Result Hok).
Defined.

Lemma Reconcile_fetch_error_witness :
  let s := start (set_objects KCloudflareTunnel ∅ (cluster foo web80 [])) in
  fst (Reconcile foo_key s) = Returned (zero_Result, Some (not_found "foo"))
  /\ st_calls (snd (Reconcile foo_key s)) = [CallGet KCloudflareTunnel foo_key]
  /\ st_r (snd (Reconcile foo_key s)) = zero_TunnelExpanded.
Proof.
  intros s.
  rewrite (Reconcile_fetch_error foo_key s (zero_obj KCloudflareTunnel) (not_found "foo")
             (st_world s)); [repeat split | by_run].
Defined.

Lemma Reconcile_forgets_memory_witness :
  Reconcile foo_key (mkState zero_TunnelExpanded settled [] [])
  = Reconcile foo_key (mkState (expanded foo7 (Some handle)) settled [] []).
Proof.
  apply (Reconcile_forgets_memory foo_key settled foo settled). by_run.
Defined.

Lemma Reconcile_tunnel_fail_fast_witness :
  let s := start (cluster foo web80 two_foos) in
  fst (Reconcile foo_key s) = Returned (zero_Result, Some (Errorf "multiple tunnels exist"))
  /\ List.filter is_write (st_calls (snd (Reconcile foo_key s))) = [].
Proof.
  intros s.
  set (s2 := snd (fetchDecodeSecret (loaded s foo_key foo (st_world s)))).
  rewrite (Reconcile_tunnel_fail_fast foo_key s foo (st_world s) s2
             (Errorf "multiple tunnels exist") (snd (createTunnelRemote s2)));
    [split; [reflexivity | by_run] | by_run | by_run | by_run].
Defined.
